(** * Solar site feasibility agent: a shallow embedding of [main.py]

    The Python program is embedded function by function.  Python objects that
    travel as JSON are values of [Py.value]; an operation that can raise
    returns a [Py.result]; the [try]/[except] blocks of the scorer are run in
    a small state-and-exception monad over the function's local variables.
    Python floats are IEEE 754 binary64 numbers, embedded as Rocq's primitive
    floats; Python integers are unbounded, embedded as [Z].

    Strings are [string]s of ASCII characters: [str.lower] and [str.strip]
    are embedded for ASCII text.

    The standard library's [json.loads], [json.dumps] and [str()] and the
    HTTPS call of the news adapter are not code of this program: they are
    variables of the sections that use them. *)

From Stdlib Require Import ZArith List String Ascii Bool Lia Floats.
Import ListNotations.

Local Open Scope string_scope.
Local Open Scope Z_scope.

(* ====================================================================== *)
(** * The Python object model *)
(* ====================================================================== *)

Module Py.

(** ** Exceptions and results *)

Inductive exn : Set :=
| TypeError
| ValueError
| KeyError
| AttributeError
| OverflowError
| ZeroDivisionError
| UnboundLocalError
| JSONDecodeError
| RecursionError.

Inductive result (A : Type) : Type :=
| Ok (a : A)
| Raise (e : exn).

Arguments Ok {A} a.
Arguments Raise {A} e.

Definition bind {A B : Type} (r : result A) (k : A -> result B) : result B :=
  match r with
  | Ok a => k a
  | Raise e => Raise e
  end.

Definition is_ok {A : Type} (r : result A) : bool :=
  match r with
  | Ok _ => true
  | Raise _ => false
  end.

(** ** Values: what [json.loads] can return *)

#[local] Set Warnings "-register-all".

Inductive value : Type :=
| VNone
| VBool (b : bool)
| VInt (z : Z)
| VFloat (f : float)
| VStr (s : string)
| VList (l : list value)
| VDict (d : list (string * value)).

(** ** Dictionaries: insertion-ordered association lists *)

Definition dict := list (string * value).

Fixpoint dict_get (d : dict) (k : string) : option value :=
  match d with
  | [] => None
  | (k', v) :: d' => if String.eqb k' k then Some v else dict_get d' k
  end.

Definition dict_has (d : dict) (k : string) : bool :=
  match dict_get d k with
  | Some _ => true
  | None => false
  end.

(** The value of [k] in [d], or [default] when [d] has no [k]. *)
Definition dict_get_or (d : dict) (k : string) (default : value) : value :=
  match dict_get d k with
  | Some v => v
  | None => default
  end.

(** [d[k] = v]: an existing key keeps its position, a new key goes last. *)
Fixpoint dict_set (d : dict) (k : string) (v : value) : dict :=
  match d with
  | [] => [(k, v)]
  | (k', v') :: d' =>
      if String.eqb k' k then (k', v) :: d' else (k', v') :: dict_set d' k v
  end.

Definition dict_keys (d : dict) : list string := map fst d.

(** ** Strings *)

Definition is_upper (c : ascii) : bool :=
  let n := nat_of_ascii c in (65 <=? n)%nat && (n <=? 90)%nat.

Definition lower_char (c : ascii) : ascii :=
  if is_upper c then ascii_of_nat (nat_of_ascii c + 32) else c.

(** [s.lower()] *)
Fixpoint lower (s : string) : string :=
  match s with
  | EmptyString => EmptyString
  | String c s' => String (lower_char c) (lower s')
  end.

(** [c.isspace()] on ASCII: tab, LF, VT, FF, CR, the separators 0x1c-0x1f
    and the space. *)
Definition is_space (c : ascii) : bool :=
  let n := nat_of_ascii c in
  ((9 <=? n)%nat && (n <=? 13)%nat) || ((28 <=? n)%nat && (n <=? 32)%nat).

(** The white space that [int()] skips around an ASCII text: tab, LF, VT,
    FF, CR and the space, not the separators. *)
Definition is_c_space (c : ascii) : bool :=
  let n := nat_of_ascii c in
  ((9 <=? n)%nat && (n <=? 13)%nat) || (n =? 32)%nat.

Fixpoint lstrip_by (space : ascii -> bool) (s : string) : string :=
  match s with
  | EmptyString => EmptyString
  | String c s' => if space c then lstrip_by space s' else s
  end.

Fixpoint rstrip_by (space : ascii -> bool) (s : string) : string :=
  match s with
  | EmptyString => EmptyString
  | String c s' =>
      match rstrip_by space s' with
      | EmptyString => if space c then EmptyString else String c EmptyString
      | r => String c r
      end
  end.

(** [s.strip()] *)
Definition strip (s : string) : string := rstrip_by is_space (lstrip_by is_space s).

(** [s.startswith(p)] *)
Definition startswith (s p : string) : bool := String.prefix p s.

(** [s.endswith(p)] *)
Definition endswith (s p : string) : bool :=
  (String.length p <=? String.length s)%nat
  && String.eqb (substring (String.length s - String.length p) (String.length p) s) p.

(** [s[a:-b]] for [a], [b] > 0: the characters from index [a] up to, not
    including, index [len(s) - b]; empty when the bounds cross. *)
Definition slice_inner (a b : nat) (s : string) : string :=
  substring a (String.length s - b - a) s.

(** [needle in hay] for two strings. *)
Fixpoint contains (needle hay : string) : bool :=
  String.prefix needle hay
  || match hay with
     | EmptyString => false
     | String _ hay' => contains needle hay'
     end.

(** [occurs_in token s]: [token] is a substring of [s]. *)
Definition occurs_in (token s : string) : Prop :=
  exists a b, s = (a ++ token ++ b)%string.

(** [s.split(sep)[0]] for a one-character separator: the text before the
    first separator, the whole string when there is none. *)
Fixpoint split_head (sep : ascii) (s : string) : string :=
  match s with
  | EmptyString => EmptyString
  | String c s' => if Ascii.eqb c sep then EmptyString else String c (split_head sep s')
  end.

(** [int(s)] for a string: surrounding white space is dropped, one sign is
    allowed, then decimal digits with single underscores between them; a text
    of more than [int_max_str_digits] digits is refused (the interpreter's
    default limit). *)
Definition digit_of (c : ascii) : option Z :=
  let n := nat_of_ascii c in
  if (48 <=? n)%nat && (n <=? 57)%nat then Some (Z.of_nat (n - 48)) else None.

Definition is_underscore (c : ascii) : bool := Ascii.eqb c "_"%char.

Definition int_max_str_digits : Z := 4300.

Fixpoint count_digits (s : string) : Z :=
  match s with
  | EmptyString => 0
  | String c s' =>
      match digit_of c with
      | Some _ => 1 + count_digits s'
      | None => count_digits s'
      end
  end.

(** [acc] is the number read so far; [after_digit] tells whether the previous
    character was a digit (an underscore must stand between two digits). *)
Fixpoint int_digits (s : string) (acc : Z) (after_digit : bool) : option Z :=
  match s with
  | EmptyString => if after_digit then Some acc else None
  | String c s' =>
      match digit_of c with
      | Some d => int_digits s' (10 * acc + d) true
      | None =>
          if is_underscore c && after_digit then
            match s' with
            | String c' _ =>
                match digit_of c' with
                | Some _ => int_digits s' acc false
                | None => None
                end
            | EmptyString => None
            end
          else None
      end
  end.

Definition int_of_str (s : string) : result Z :=
  let text := rstrip_by is_c_space (lstrip_by is_c_space s) in
  let body :=
    match text with
    | String "+"%char r => int_digits r 0 false
    | String "-"%char r => option_map Z.opp (int_digits r 0 false)
    | r => int_digits r 0 false
    end in
  match body with
  | Some n => if int_max_str_digits <? count_digits text then Raise ValueError else Ok n
  | None => Raise ValueError
  end.

(** ** Numbers

    A Python [int] is a [Z], a Python [float] a binary64 float; [bool] is a
    subclass of [int]. *)

Inductive num : Type :=
| NInt (z : Z)
| NFloat (f : float).

Definition as_num (v : value) : option num :=
  match v with
  | VBool b => Some (NInt (Z.b2z b))
  | VInt z => Some (NInt z)
  | VFloat f => Some (NFloat f)
  | _ => None
  end.

Definition value_of_num (n : num) : value :=
  match n with
  | NInt z => VInt z
  | NFloat f => VFloat f
  end.

(** *** Exact comparison

    Python compares an [int] with a [float] by their exact values, with no
    conversion; every comparison with a NaN is false.  [xreal] is the extended
    real a number denotes: [XFin m e] stands for [m * 2^e]. *)

Inductive xreal : Set :=
| XNan
| XInf (neg : bool)
| XFin (m e : Z).

Definition xreal_of_float (f : float) : xreal :=
  match Prim2SF f with
  | S754_zero _ => XFin 0 0
  | S754_infinity s => XInf s
  | S754_nan => XNan
  | S754_finite s m e => XFin (if s then Z.neg m else Z.pos m) e
  end.

Definition xreal_of_num (n : num) : xreal :=
  match n with
  | NInt z => XFin z 0
  | NFloat f => xreal_of_float f
  end.

Definition fin_compare (m1 e1 m2 e2 : Z) : comparison :=
  let e := Z.min e1 e2 in
  Z.compare (m1 * 2 ^ (e1 - e)) (m2 * 2 ^ (e2 - e)).

Definition xcompare (a b : xreal) : option comparison :=
  match a, b with
  | XNan, _ | _, XNan => None
  | XInf s1, XInf s2 => Some (if s1 then (if s2 then Eq else Lt) else (if s2 then Gt else Eq))
  | XInf s, XFin _ _ => Some (if s then Lt else Gt)
  | XFin _ _, XInf s => Some (if s then Gt else Lt)
  | XFin m1 e1, XFin m2 e2 => Some (fin_compare m1 e1 m2 e2)
  end.

Definition num_compare (a b : num) : option comparison :=
  xcompare (xreal_of_num a) (xreal_of_num b).

(** [a < b], [a > b], [a >= b], [a <= b] *)
Definition num_lt (a b : num) : bool :=
  match num_compare a b with Some Lt => true | _ => false end.

Definition num_gt (a b : num) : bool :=
  match num_compare a b with Some Gt => true | _ => false end.

Definition num_ge (a b : num) : bool :=
  match num_compare a b with Some Gt | Some Eq => true | _ => false end.

Definition num_le (a b : num) : bool :=
  match num_compare a b with Some Lt | Some Eq => true | _ => false end.

(** [max(a, b)] keeps [a] unless [b > a]; [min(a, b)] keeps [a] unless
    [b < a]. *)
Definition num_max (a b : num) : num := if num_gt b a then b else a.
Definition num_min (a b : num) : num := if num_lt b a then b else a.

(** *** Conversions and arithmetic *)

Definition float_of_spec (sf : spec_float) : result float :=
  match sf with
  | S754_infinity _ => Raise OverflowError
  | _ => Ok (SF2Prim sf)
  end.

(** [float(z)]: the nearest float, ties to even; too large an [int] raises. *)
Definition float_of_Z (z : Z) : result float :=
  float_of_spec (binary_normalize prec emax z 0 false).

(** The float nearest to the quotient [n / d] of two positive integers, with
    sign [neg]. *)
Definition nearest_quotient (neg : bool) (n d : Z) : spec_float :=
  let '(q, e, l) := SFdiv_core_binary prec emax n 0 d 0 in
  binary_round_aux prec emax neg q e l.

(** [a / b] for two [int]s: the correctly rounded quotient. *)
Definition int_truediv (a b : Z) : result float :=
  if b =? 0 then Raise ZeroDivisionError
  else
    let neg := xorb (a <? 0) (b <? 0) in
    if a =? 0 then Ok (if neg then neg_zero else zero)
    else float_of_spec (nearest_quotient neg (Z.abs a) (Z.abs b)).

Definition to_float (n : num) : result float :=
  match n with
  | NInt z => float_of_Z z
  | NFloat f => Ok f
  end.

Definition float_binop (op : float -> float -> float) (a b : num) : result num :=
  bind (to_float a) (fun x => bind (to_float b) (fun y => Ok (NFloat (op x y)))).

Definition num_add (a b : num) : result num :=
  match a, b with
  | NInt x, NInt y => Ok (NInt (x + y))
  | _, _ => float_binop PrimFloat.add a b
  end.

Definition num_sub (a b : num) : result num :=
  match a, b with
  | NInt x, NInt y => Ok (NInt (x - y))
  | _, _ => float_binop PrimFloat.sub a b
  end.

Definition num_mul (a b : num) : result num :=
  match a, b with
  | NInt x, NInt y => Ok (NInt (x * y))
  | _, _ => float_binop PrimFloat.mul a b
  end.

Definition num_truediv (a b : num) : result num :=
  match a, b with
  | NInt x, NInt y => bind (int_truediv x y) (fun q => Ok (NFloat q))
  | _, _ =>
      bind (to_float a) (fun x =>
      bind (to_float b) (fun y =>
      if PrimFloat.eqb y zero then Raise ZeroDivisionError
      else Ok (NFloat (PrimFloat.div x y))))
  end.

(** *** [round(x, 1)]

    An [int] is returned as it is.  A finite float is rounded to the nearest
    multiple of one tenth of its exact value, ties going to the even tenth,
    and the float nearest to that decimal is returned; zeros, infinities and
    NaN are returned as they are. *)

(** The integer nearest to [m * 2^e], ties to even, for [m >= 0]. *)
Definition round_half_even (m e : Z) : Z :=
  if 0 <=? e then m * 2 ^ e
  else
    let d := 2 ^ (- e) in
    let q := m / d in
    match Z.compare (2 * (m mod d)) d with
    | Lt => q
    | Gt => q + 1
    | Eq => if Z.even q then q else q + 1
    end.

Definition round1_float (x : float) : float :=
  match Prim2SF x with
  | S754_finite s m e =>
      let tenths := round_half_even (10 * Z.pos m) e in
      if tenths =? 0 then (if s then neg_zero else zero)
      else SF2Prim (nearest_quotient s tenths 10)
  | _ => x
  end.

Definition round1 (n : num) : num :=
  match n with
  | NInt z => NInt z
  | NFloat f => NFloat (round1_float f)
  end.

(** ** Operations on values *)

(** Truth value of an object, as [if x], [not x] and [x and y] test it. *)
Definition truthy (v : value) : bool :=
  match v with
  | VNone => false
  | VBool b => b
  | VInt z => negb (z =? 0)
  | VFloat f => match Prim2SF f with S754_zero _ => false | _ => true end
  | VStr s => negb (String.eqb s "")
  | VList l => match l with [] => false | _ => true end
  | VDict d => match d with [] => false | _ => true end
  end.

Definition is_str (v : value) (s : string) : bool :=
  match v with
  | VStr s' => String.eqb s' s
  | _ => false
  end.

(** [needle in c] for a string [needle]: a key of a dict, an element of a
    list, a substring of a string; anything else is not iterable. *)
Definition py_in (needle : string) (c : value) : result bool :=
  match c with
  | VDict d => Ok (dict_has d needle)
  | VList l => Ok (existsb (fun v => is_str v needle) l)
  | VStr s => Ok (contains needle s)
  | _ => Raise TypeError
  end.

(** [c[k]] for a string [k]: only a dict can be indexed by a string. *)
Definition py_getitem (c : value) (k : string) : result value :=
  match c with
  | VDict d =>
      match dict_get d k with
      | Some v => Ok v
      | None => Raise KeyError
      end
  | _ => Raise TypeError
  end.

(** [c.get(k, default)]: only a dict has the method. *)
Definition py_get (c : value) (k : string) (default : value) : result value :=
  match c with
  | VDict d =>
      match dict_get d k with
      | Some v => Ok v
      | None => Ok default
      end
  | _ => Raise AttributeError
  end.

(** [c.items()]: only a dict has the method. *)
Definition py_items (c : value) : result dict :=
  match c with
  | VDict d => Ok d
  | _ => Raise AttributeError
  end.

(** [c.split(sep)[0]]: only a string has the method. *)
Definition py_split_head (c : value) (sep : ascii) : result string :=
  match c with
  | VStr s => Ok (split_head sep s)
  | _ => Raise AttributeError
  end.

(** [d.update(items)] *)
Definition dict_update (d items : dict) : dict :=
  fold_left (fun acc kv => dict_set acc (fst kv) (snd kv)) items d.

(** ** Hashable values as set members

    A set holds hashable objects up to [==]: numbers are equal by exact
    value whatever their type ([1 == 1.0 == True]), strings by their
    characters, [None] only to itself; the one NaN object of the [json]
    module is found by identity.  A [key] is the normal form of a hashable
    value: a finite number [m * 2^e] is kept with [m] odd, or as [0 * 2^0]. *)

Inductive key : Set :=
| KNone
| KNan
| KInf (neg : bool)
| KNum (m e : Z)
| KStr (s : string).

Fixpoint odd_part (p : positive) (e : Z) : positive * Z :=
  match p with
  | xO p' => odd_part p' (e + 1)
  | _ => (p, e)
  end.

Definition key_of_xreal (x : xreal) : key :=
  match x with
  | XNan => KNan
  | XInf s => KInf s
  | XFin 0 _ => KNum 0 0
  | XFin (Z.pos p) e => let '(p', e') := odd_part p e in KNum (Z.pos p') e'
  | XFin (Z.neg p) e => let '(p', e') := odd_part p e in KNum (Z.neg p') e'
  end.

(** [hash(v)]: lists and dicts are unhashable. *)
Definition hash_key (v : value) : result key :=
  match v with
  | VNone => Ok KNone
  | VStr s => Ok (KStr s)
  | VList _ | VDict _ => Raise TypeError
  | VBool b => Ok (key_of_xreal (XFin (Z.b2z b) 0))
  | VInt z => Ok (key_of_xreal (XFin z 0))
  | VFloat f => Ok (key_of_xreal (xreal_of_float f))
  end.

Definition key_eqb (a b : key) : bool :=
  match a, b with
  | KNone, KNone => true
  | KNan, KNan => true
  | KInf s1, KInf s2 => Bool.eqb s1 s2
  | KNum m1 e1, KNum m2 e2 => (m1 =? m2) && (e1 =? e2)
  | KStr s1, KStr s2 => String.eqb s1 s2
  | _, _ => false
  end.

(** [k in seen] *)
Definition key_mem (k : key) (seen : list key) : bool := existsb (key_eqb k) seen.

End Py.

Import Py.

Declare Scope py_scope.
Delimit Scope py_scope with py.
Notation "x <- r ;; k" := (bind r (fun x => k))
  (at level 61, r at next level, right associativity) : py_scope.

(* ====================================================================== *)
(** * Research agent *)
(* ====================================================================== *)

Module Research.

Definition search_terms_list : list string :=
  [ "solar development moratorium";
    "solar project restriction";
    "renewable energy policy";
    "solar zoning restriction";
    "solar panel installation ban";
    "solar incentive program";
    "solar permit requirement";
    "utility interconnection solar" ].

Definition base_url : string := "api.thenewsapi.com".

(** [if location: search_terms_list = [f"{term} {location}" ...]]: [None]
    and the empty string are both false. *)
Definition located_terms (location : option string) : list string :=
  match location with
  | None | Some "" => search_terms_list
  | Some loc => map (fun term => (term ++ " " ++ loc)%string) search_terms_list
  end.

(** [location or 'General'] *)
Definition search_location (location : option string) : string :=
  match location with
  | None | Some "" => "General"
  | Some loc => loc
  end.

(** The state of the deduplication loop. *)
Record dedup_state : Type := mk_dedup
  { unique_articles : list value;
    seen_titles : list key }.

(** The body of [for article in all_articles]. *)
Definition dedup_step (st : dedup_state) (article : value) : result dedup_state :=
  (title <- py_get article "title" (VStr "") ;;
   k <- hash_key title ;;
   if negb (key_mem k (seen_titles st)) && truthy title
   then Ok (mk_dedup (unique_articles st ++ [article])%list (k :: seen_titles st))
   else Ok st)%py.

Fixpoint dedup_loop (all_articles : list value) (st : dedup_state) : result dedup_state :=
  match all_articles with
  | [] => Ok st
  | article :: rest => (st' <- dedup_step st article ;; dedup_loop rest st')%py
  end.

(** Lines 73-80: the unique articles of [all_articles], in order. *)
Definition dedup (all_articles : list value) : result (list value) :=
  (st <- dedup_loop all_articles (mk_dedup [] []) ;; Ok (unique_articles st))%py.

(** What the loop body reads of an article: the key of its title in
    [seen_titles] and the truth value of the title, or the exception the body
    raises on it. *)
Definition title_of (article : value) : result (key * bool) :=
  (title <- py_get article "title" (VStr "") ;;
   k <- hash_key title ;;
   Ok (k, truthy title))%py.

(** An article as the API returns it: a JSON object whose title, when it has
    one, is hashable (a string in practice). *)
Definition is_article (a : value) : bool :=
  match a with
  | VDict d =>
      match dict_get d "title" with
      | Some (VList _) | Some (VDict _) => false
      | _ => true
      end
  | _ => false
  end.

(** [subseq u l]: [u] is [l] with some elements left out, the others in
    their order. *)
Inductive subseq {A : Type} : list A -> list A -> Prop :=
| subseq_nil : subseq [] []
| subseq_skip (x : A) (u l : list A) : subseq u l -> subseq u (x :: l)
| subseq_keep (x : A) (u l : list A) : subseq u l -> subseq (x :: u) (x :: l).

Section Tool.

(** [json.dumps] and the news adapter [_perform_news_search(search_terms,
    api_token, base_url)], which returns the [data] list of the response, or
    the empty list when the call fails. *)
Variable json_dumps : value -> string.
Variable _perform_news_search : string -> string -> string -> list value.

(** Lines 67-71: one search per term, the results appended in turn. *)
Definition gather (terms : list string) (api_token : string) : list value :=
  fold_left
    (fun all_articles term =>
       (all_articles ++ _perform_news_search term api_token base_url)%list)
    terms [].

(** The object handed to [json.dumps] on line 82. *)
Definition research_payload (unique : list value) (location : option string) : value :=
  VDict [ ("total_articles", VInt (Z.of_nat (List.length unique)));
          ("articles", VList (firstn 10 unique));
          ("search_location", VStr (search_location location)) ].

(** [NEWS_API_TOKEN] is the value of the environment variable, which the
    module sets to the empty string when it is absent. *)
Definition site_impact_research_tool (NEWS_API_TOKEN : string) (location : option string)
  : result string :=
  if String.eqb NEWS_API_TOKEN "" then
    Ok "Error: NEWS_API_TOKEN environment variable not set"
  else
    (unique <- dedup (gather (located_terms location) NEWS_API_TOKEN) ;;
     Ok (json_dumps (research_payload unique location)))%py.

End Tool.

End Research.

(* ====================================================================== *)
(** * Permitting agent *)
(* ====================================================================== *)

Module Permitting.

Definition strs (l : list string) : value := VList (map VStr l).

Definition JURISDICTION_RULES : dict :=
  [ ("los_angeles",
     VDict [ ("jurisdiction_name", VStr "City of Los Angeles");
             ("permit_type", VStr "Solar Installation Permit");
             ("requirements",
              strs [ "Site plan with solar array layout";
                     "Electrical single-line diagram";
                     "Structural calculations";
                     "Interconnection application";
                     "LADBS permit application" ]);
             ("fees", VInt 500);
             ("processing_time", VStr "4-6 weeks");
             ("contact", VStr "ladbs.lacity.org") ]);
    ("san_francisco",
     VDict [ ("jurisdiction_name", VStr "City of San Francisco");
             ("permit_type", VStr "Solar Photovoltaic System Permit");
             ("requirements",
              strs [ "Solar system plans and specifications";
                     "Electrical permit application";
                     "Building permit (if roof modifications)";
                     "Fire department clearance form";
                     "Utility interconnection agreement" ]);
             ("fees", VInt 750);
             ("processing_time", VStr "3-4 weeks");
             ("contact", VStr "sfdbi.org") ]);
    ("california_default",
     VDict [ ("jurisdiction_name", VStr "California County (Generic)");
             ("permit_type", VStr "Residential Solar Permit");
             ("requirements",
              strs [ "Solar system design plans";
                     "Electrical diagram";
                     "Building department application";
                     "Utility notification form" ]);
             ("fees", VInt 300);
             ("processing_time", VStr "2-4 weeks");
             ("contact", VStr "Local building department") ]) ].

Definition PERMIT_TEMPLATE : dict :=
  [ ("applicant_name", VStr "");
    ("property_address", VStr "");
    ("jurisdiction", VStr "");
    ("permit_type", VStr "");
    ("system_size_kw", VStr "");
    ("panel_count", VStr "");
    ("inverter_type", VStr "");
    ("installation_company", VStr "");
    ("contractor_license", VStr "");
    ("estimated_cost", VStr "");
    ("requirements_checklist", VList []);
    ("fees", VInt 0);
    ("processing_time", VStr "");
    ("submission_date", VStr "");
    ("status", VStr "Draft") ].

(** Lines 167-174: the local variable [jurisdiction]. *)
Definition classify (address : string) : string :=
  let address_lower := lower address in
  if contains "los angeles" address_lower || contains "la" address_lower then
    "los_angeles"
  else if contains "san francisco" address_lower || contains "sf" address_lower then
    "san_francisco"
  else
    "california_default".

(** The object handed to [json.dumps] on line 178. *)
Definition classification_payload (address jurisdiction : string) (rules : value) : value :=
  VDict [ ("address", VStr address);
          ("classified_jurisdiction", VStr jurisdiction);
          ("jurisdiction_info", rules) ].

(** Lines 209-215: the fields copied from the jurisdiction's rules. *)
Definition fill_form (address : string) (rules : value) : result dict :=
  (let permit_form := PERMIT_TEMPLATE in
   let permit_form := dict_set permit_form "property_address" (VStr address) in
   v <- py_getitem rules "jurisdiction_name" ;;
   let permit_form := dict_set permit_form "jurisdiction" v in
   v <- py_getitem rules "permit_type" ;;
   let permit_form := dict_set permit_form "permit_type" v in
   v <- py_getitem rules "requirements" ;;
   let permit_form := dict_set permit_form "requirements_checklist" v in
   v <- py_getitem rules "fees" ;;
   let permit_form := dict_set permit_form "fees" v in
   v <- py_getitem rules "processing_time" ;;
   let permit_form := dict_set permit_form "processing_time" v in
   Ok (dict_set permit_form "submission_date" (VStr "2024-07-18")))%py.

(** Line 219: [permit_form.update({k: v for k, v in details.items() if k in
    permit_form})]. *)
Definition merge_details (permit_form : dict) (details : value) : result dict :=
  (items <- py_items details ;;
   Ok (dict_update permit_form
         (filter (fun kv => dict_has permit_form (fst kv)) items)))%py.

(** The form after lines 207-215, for rules that have the six fields. *)
Definition filled_form (address : string) (name permit_type requirements fees time : value)
  : dict :=
  [ ("applicant_name", VStr "");
    ("property_address", VStr address);
    ("jurisdiction", name);
    ("permit_type", permit_type);
    ("system_size_kw", VStr "");
    ("panel_count", VStr "");
    ("inverter_type", VStr "");
    ("installation_company", VStr "");
    ("contractor_license", VStr "");
    ("estimated_cost", VStr "");
    ("requirements_checklist", requirements);
    ("fees", fees);
    ("processing_time", time);
    ("submission_date", VStr "2024-07-18");
    ("status", VStr "Draft") ].

Definition invalid_jurisdiction_data : string :=
  "Error: Invalid or unparseable jurisdiction data provided to generate_permit_form_tool.".

Section Tools.

(** [json.dumps]; [json.loads], with the exception it raises: a
    [JSONDecodeError] on a text that is no JSON, and also a [RecursionError]
    on a text nested too deep or a [ValueError] on an integer literal of more
    digits than [int] converts; and the text of an object inside an
    f-string. *)
Variable json_dumps : value -> string.
Variable json_loads : string -> result value.
Variable py_str : value -> string.

Definition classify_jurisdiction_tool (address : string) : result string :=
  (let jurisdiction := classify address in
   rules <- py_getitem (VDict JURISDICTION_RULES) jurisdiction ;;
   Ok (json_dumps (classification_payload address jurisdiction rules)))%py.

(** Lines 188-199: strip the text and a surrounding code fence, then parse;
    the handler of line 197 turns a [JSONDecodeError], and no other
    exception, into the empty dict. *)
Definition unfence (text : string) : string :=
  let text := strip text in
  if startswith text "```json" && endswith text "```" then
    strip (slice_inner (String.length "```json") (String.length "```") text)
  else if startswith text "```" && endswith text "```" then
    strip (slice_inner (String.length "```") (String.length "```") text)
  else text.

Definition _extract_json_from_text (text : string) : result value :=
  match json_loads (unfence text) with
  | Ok v => Ok v
  | Raise JSONDecodeError => Ok (VDict [])
  | Raise e => Raise e
  end.

(** The system details that line 217-219 merge: none when the blob is empty
    or does not parse, the members of the object it parses to; a blob
    that parses to something else has no [items], and one on which
    [json.loads] raises another exception gives no details either. *)
Definition parsed_details (system_details : string) : option dict :=
  if String.eqb system_details "" then Some []
  else
    match _extract_json_from_text system_details with
    | Ok (VDict details) => Some details
    | _ => None
    end.

(** The object handed to [json.dumps] on line 221. *)
Definition permit_payload (permit_form : dict) (rules_contact rules_fees rules_time : value)
  : value :=
  VDict [ ("permit_form", VDict permit_form);
          ("jurisdiction_contact", rules_contact);
          ("next_steps",
           strs [ "Complete all required documents";
                  ("Pay permit fee of $" ++ py_str rules_fees)%string;
                  "Submit application to jurisdiction";
                  ("Wait " ++ py_str rules_time ++ " for approval")%string ]) ].

Definition generate_permit_form_tool (address jurisdiction_data system_details : string)
  : result string :=
  (jurisdiction_info <- _extract_json_from_text jurisdiction_data ;;
   missing <- (if negb (truthy jurisdiction_info) then Ok true
               else has <- py_in "jurisdiction_info" jurisdiction_info ;; Ok (negb has)) ;;
   if (missing : bool) then Ok invalid_jurisdiction_data
   else
     rules <- py_getitem jurisdiction_info "jurisdiction_info" ;;
     permit_form <- fill_form address rules ;;
     permit_form <- (if negb (String.eqb system_details "")
                     then details <- _extract_json_from_text system_details ;;
                          merge_details permit_form details
                     else Ok permit_form) ;;
     contact <- py_getitem rules "contact" ;;
     fees <- py_getitem rules "fees" ;;
     processing_time <- py_getitem rules "processing_time" ;;
     Ok (json_dumps (permit_payload permit_form contact fees processing_time)))%py.

End Tools.

End Permitting.

(* ====================================================================== *)
(** * Feasibility system *)
(* ====================================================================== *)

Module Feasibility.

Definition extract_location_from_address (address : string) : string :=
  let address_lower := lower address in
  if contains "los angeles" address_lower || contains "la" address_lower then
    "Los Angeles California"
  else if contains "san francisco" address_lower || contains "sf" address_lower then
    "San Francisco California"
  else
    "California".

(** ** Local variables of [calculate_feasibility_score]

    [fees] and [processing_weeks] are assigned inside the first [try] block
    and read after it: an exception leaves them as they were when it was
    raised, unbound when nothing was assigned yet. *)

Record locals : Type := mk_locals
  { fees : option value;
    processing_weeks : option Z }.

Definition unbound : locals := mk_locals None None.

(** Statements of a [try] block: they read and assign the locals, and
    return a value or raise. *)
Definition stmt (A : Type) : Type := locals -> locals * result A.

Definition ret {A : Type} (a : A) : stmt A := fun l => (l, Ok a).

Definition seq {A B : Type} (s : stmt A) (k : A -> stmt B) : stmt B :=
  fun l =>
    match s l with
    | (l', Ok a) => k a l'
    | (l', Raise e) => (l', Raise e)
    end.

(** An expression: it assigns nothing. *)
Definition eval {A : Type} (r : result A) : stmt A := fun l => (l, r).

Definition assign_fees (v : value) : stmt unit :=
  fun l => (mk_locals (Some v) (processing_weeks l), Ok tt).

Definition assign_processing_weeks (w : Z) : stmt unit :=
  fun l => (mk_locals (fees l) (Some w), Ok tt).

Definition read {A : Type} (var : locals -> option A) : stmt A :=
  fun l =>
    match var l with
    | Some a => (l, Ok a)
    | None => (l, Raise UnboundLocalError)
    end.

Declare Scope stmt_scope.
Delimit Scope stmt_scope with stmt.
Notation "x <- s ;; k" := (seq s (fun x => k))
  (at level 61, s at next level, right associativity) : stmt_scope.
Notation "s ;; k" := (seq s (fun _ => k))
  (at level 61, right associativity) : stmt_scope.

(** The literals [0.6] and [0.4]: the floats nearest to them. *)
Definition f0_6 : float := 0x1.3333333333333p-1%float.
Definition f0_4 : float := 0x1.999999999999ap-2%float.

(** The floats nearest to 69.9, 49.9 and 69.96. *)
Definition f69_9 : float := 0x1.179999999999ap+6%float.
Definition f49_9 : float := 0x1.8f33333333333p+5%float.
Definition f69_96 : float := 0x1.17d70a3d70a3dp+6%float.

(** Line 338: [max(0, 100 - (fees / 10) - (processing_weeks * 5))]. *)
Definition permit_formula (fees : value) (processing_weeks : Z) : result num :=
  match as_num fees with
  | None => Raise TypeError
  | Some f =>
      (q <- num_truediv f (NInt 10) ;;
       a <- num_sub (NInt 100) q ;;
       b <- num_sub a (NInt (processing_weeks * 5)) ;;
       Ok (num_max (NInt 0) b))%py
  end.

(** Line 348: [max(20, min(80, 70 - (total_articles * 2)))].  The product
    of a string or a list by 2 is a sequence, which cannot be subtracted
    from 70: the [TypeError] is the one of an object that is no number. *)
Definition research_formula (total_articles : value) : result num :=
  match as_num total_articles with
  | None => Raise TypeError
  | Some t =>
      (p <- num_mul t (NInt 2) ;;
       d <- num_sub (NInt 70) p ;;
       Ok (num_max (NInt 20) (num_min (NInt 80) d)))%py
  end.

(** [except: score = 60] *)
Definition or_flat_60 (r : result num) : num :=
  match r with
  | Ok score => score
  | Raise _ => NInt 60
  end.

Section Scorer.

(** [json.loads], [None] when it raises: the two bare [except] clauses of
    lines 340 and 350 catch every exception alike. *)
Variable json_loads : string -> option value.

(** [if isinstance(data, str): data = json.loads(data)] *)
Definition loads_if_str (data : value) : result value :=
  match data with
  | VStr s =>
      match json_loads s with
      | Some v => Ok v
      | None => Raise JSONDecodeError
      end
  | _ => Ok data
  end.

(** Lines 328-338: the defaults, the fields of the permit form and the
    formula. *)
Definition extract_permit (permitting_data : value) : stmt num :=
  (assign_fees (VInt 500) ;;
   assign_processing_weeks 4 ;;
   has_form <- eval (py_in "permit_form" permitting_data) ;;
   (if (has_form : bool) then
      permit_form <- eval (py_getitem permitting_data "permit_form") ;;
      f <- eval (py_get permit_form "fees" (VInt 500)) ;;
      assign_fees f ;;
      processing_time <- eval (py_get permit_form "processing_time" (VStr "4 weeks")) ;;
      has_week <- eval (py_in "week" processing_time) ;;
      if (has_week : bool) then
        head <- eval (py_split_head processing_time "-"%char) ;;
        w <- eval (int_of_str head) ;;
        assign_processing_weeks w
      else ret tt
    else ret tt) ;;
   f <- read fees ;;
   w <- read processing_weeks ;;
   eval (permit_formula f w))%stmt.

(** Lines 325-338: the body of the first [try]. *)
Definition permit_try (permitting_data : value) : stmt num :=
  (permitting_data <- eval (loads_if_str permitting_data) ;;
   extract_permit permitting_data)%stmt.

(** Lines 324-341: the first [try]/[except]; the locals it leaves, and
    [permit_score]. *)
Definition permit_stage (permitting_data : value) : locals * num :=
  let '(l, r) := permit_try permitting_data unbound in (l, or_flat_60 r).

(** Lines 343-351: the second [try]/[except]; [research_score]. *)
Definition research_try (research_data : value) : result num :=
  (research_data <- loads_if_str research_data ;;
   total_articles <- py_get research_data "total_articles" (VInt 0) ;;
   research_formula total_articles)%py.

Definition research_stage (research_data : value) : num :=
  or_flat_60 (research_try research_data).

(** Line 353 *)
Definition overall (permit_score research_score : num) : result num :=
  (a <- num_mul permit_score (NFloat f0_6) ;;
   b <- num_mul research_score (NFloat f0_4) ;;
   num_add a b)%py.

(** Lines 355-363: [(decision, risk_level)]. *)
Definition decide_risk (overall_score : num) : string * string :=
  if num_ge overall_score (NInt 70) then ("GO", "Low")
  else if num_ge overall_score (NInt 50) then ("CONDITIONAL GO", "Medium")
  else ("NO-GO", "High").

(** Lines 353-373 *)
Definition report (l : locals) (permit_score research_score : num) : result value :=
  (overall_score <- overall permit_score research_score ;;
   let '(decision, risk_level) := decide_risk overall_score in
   f <- snd (read fees l) ;;
   w <- snd (read processing_weeks l) ;;
   Ok (VDict [ ("overall_score", value_of_num (round1 overall_score));
               ("decision", VStr decision);
               ("risk_level", VStr risk_level);
               ("permit_score", value_of_num (round1 permit_score));
               ("research_score", value_of_num (round1 research_score));
               ("fees", f);
               ("processing_weeks", VInt w) ]))%py.

Definition calculate_feasibility_score (permitting_data research_data : value)
  : result value :=
  let '(l, permit_score) := permit_stage permitting_data in
  let research_score := research_stage research_data in
  report l permit_score research_score.

End Scorer.

End Feasibility.

(* ====================================================================== *)
(** * The news adapter, the task runner's results and the report *)
(* ====================================================================== *)

Module Orchestration.

Import Research Permitting Feasibility.

(** Line 244: the object that [create_permitting_task] hands to [json.dumps]
    as the system details of the task. *)
Definition system_details_of (system_size panel_count : string) : value :=
  VDict [ ("system_size_kw", VStr system_size);
          ("panel_count", VStr panel_count);
          ("estimated_cost", VStr "$0");
          ("inverter_type", VStr "Unknown") ].

(** Lines 24-29: the query of one search. *)
Definition news_query (search_terms api_token : string) : dict :=
  [ ("api_token", VStr api_token);
    ("search", VStr search_terms);
    ("limit", VInt 10);
    ("locale", VStr "us,ca") ].

(** [all_articles.extend(articles)]: a list gives its elements, a string its
    characters, a dict its keys; nothing else can be iterated. *)
Definition py_extend (all_articles : list value) (articles : value) : result (list value) :=
  match articles with
  | VList l => Ok (all_articles ++ l)%list
  | VStr s =>
      Ok (all_articles
          ++ map (fun c => VStr (String c EmptyString)) (list_ascii_of_string s))%list
  | VDict d => Ok (all_articles ++ map VStr (dict_keys d))%list
  | _ => Raise TypeError
  end.

(** What the task runner returns, as far as [get_crew_answer] looks at it:
    the attributes [raw] and [tasks_output], [None] when the object has no
    such attribute, and the attribute [result] of each task output. *)
Record task_output : Type := mk_task_output
  { task_result : option value }.

Record crew_result : Type := mk_crew_result
  { raw : option value;
    tasks_output : option (list task_output) }.

Section Runner.

(** [json.loads], [None] when it raises: the handlers of lines 38 and
    303-308 catch every exception alike; [json.dumps]; the text of an object
    inside an f-string; [str(crew_result)]. *)
Variable json_loads : string -> option value.
Variable json_dumps : value -> string.
Variable py_str : value -> string.
Variable crew_str : crew_result -> string.

(** The HTTPS exchange of lines 22, 32-34 and 41: the decoded body of the
    response to a query sent to a host, or the exception raised on the
    way. *)
Variable https_get : string -> dict -> result string.

(** The two crews of lines 389-390 and 420-426, by what their tasks are built
    from. *)
Variable permitting_kickoff : string -> string -> string -> crew_result.
Variable research_kickoff : string -> crew_result.

(** [json.loads(v)]: only a text can be parsed. *)
Definition loads_value (v : value) : result value :=
  match v with
  | VStr s =>
      match json_loads s with
      | Some parsed => Ok parsed
      | None => Raise JSONDecodeError
      end
  | _ => Raise TypeError
  end.

(** Lines 21-41: the [data] member of the parsed response, the empty list
    when it has none or when anything raises. *)
Definition _perform_news_search (search_terms api_token base_url : string) : value :=
  let attempt :=
    (body <- https_get base_url (news_query search_terms api_token) ;;
     parsed <- loads_value (VStr body) ;;
     py_get parsed "data" (VList []))%py in
  match attempt with
  | Ok data => data
  | Raise _ => VList []
  end.

(** Lines 67-71 on whatever the adapter returns. *)
Fixpoint gather_all (terms : list string) (api_token : string) (all_articles : list value)
  : result (list value) :=
  match terms with
  | [] => Ok all_articles
  | term :: rest =>
      (all_articles <- py_extend all_articles
                         (_perform_news_search term api_token Research.base_url) ;;
       gather_all rest api_token all_articles)%py
  end.

(** Lines 44-86 with the adapter of lines 21-41 in place. *)
Definition site_impact_research_tool (NEWS_API_TOKEN : string) (location : option string)
  : result string :=
  if String.eqb NEWS_API_TOKEN "" then
    Ok "Error: NEWS_API_TOKEN environment variable not set"
  else
    (all_articles <- gather_all (located_terms location) NEWS_API_TOKEN [] ;;
     unique <- dedup all_articles ;;
     Ok (json_dumps (research_payload unique location)))%py.

(** Lines 299-302: the last task output, when [raw] is absent or false. *)
Definition from_tasks_output (crew : crew_result) : result value :=
  match tasks_output crew with
  | Some (first :: rest) =>
      match task_result (last rest first) with
      | Some last_task_output => loads_value last_task_output
      | None => Raise AttributeError
      end
  | _ => Ok (VStr (crew_str crew))
  end.

(** Lines 292-308: every exception gives [str(crew_result)]. *)
Definition get_crew_answer (crew : crew_result) : value :=
  let attempt :=
    match raw crew with
    | Some r =>
        if truthy r then
          match r with
          | VDict _ => Ok r
          | _ => loads_value r
          end
        else from_tasks_output crew
    | None => from_tasks_output crew
    end in
  match attempt with
  | Ok answer => answer
  | Raise _ => VStr (crew_str crew)
  end.

(** Lines 451-460: the justification, before [strip]. *)
Definition justification_text
           (decision permit_score fees weeks research_score overall_score risk_level : value)
  : string :=
  ("
        DECISION: " ++ py_str decision ++ "
        
        Reasoning:
        ‚Ä¢ Permitting Score: " ++ py_str permit_score ++ "/100 (fees: $" ++ py_str fees
   ++ ", time: " ++ py_str weeks ++ " weeks)
        ‚Ä¢ Research Score: " ++ py_str research_score ++ "/100 (regulatory environment analysis)
        ‚Ä¢ Overall Score: " ++ py_str overall_score ++ "/100
        
        Risk Level: " ++ py_str risk_level ++ "
        ")%string.

(** Lines 435-463: the final report. *)
Definition final_report (address system_size panel_count location : string)
           (feasibility permitting_data research_data : value) : result value :=
  (overall_score <- py_getitem feasibility "overall_score" ;;
   decision <- py_getitem feasibility "decision" ;;
   risk_level <- py_getitem feasibility "risk_level" ;;
   permit_score <- py_getitem feasibility "permit_score" ;;
   research_score <- py_getitem feasibility "research_score" ;;
   fees <- py_getitem feasibility "fees" ;;
   weeks <- py_getitem feasibility "processing_weeks" ;;
   Ok (VDict
         [ ("address", VStr address);
           ("system_specs", VStr (system_size ++ " system, " ++ panel_count ++ " panels"));
           ("assessment_date", VStr "2024-07-18");
           ("feasibility_score", overall_score);
           ("decision", decision);
           ("risk_level", risk_level);
           ("breakdown",
            VDict [ ("permitting_score", permit_score);
                    ("research_score", research_score) ]);
           ("key_factors",
            VDict [ ("estimated_fees", VStr ("$" ++ py_str fees));
                    ("processing_time", VStr (py_str weeks ++ " weeks"));
                    ("location_research", VStr location) ]);
           ("justification",
            VStr (strip (justification_text decision permit_score fees weeks
                           research_score overall_score risk_level)));
           ("raw_permitting_data", permitting_data);
           ("raw_research_data", research_data) ]))%py.

(** Lines 375-465, without what is printed. *)
Definition assess_solar_site_feasibility (address system_size panel_count : string)
  : result value :=
  (let permitting_result := permitting_kickoff address system_size panel_count in
   let permitting_data := get_crew_answer permitting_result in
   let location := extract_location_from_address address in
   let research_result := research_kickoff location in
   let research_data := get_crew_answer research_result in
   feasibility <- calculate_feasibility_score json_loads permitting_data research_data ;;
   final_report address system_size panel_count location
     feasibility permitting_data research_data)%py.

End Runner.

End Orchestration.

(* ====================================================================== *)
(** * Facts about the object model *)
(* ====================================================================== *)

Module PyFacts.

(** ** Results *)

Lemma bind_ok {A B : Type} (r : result A) (k : A -> result B) (b : B) :
  bind r k = Ok b -> exists a, r = Ok a /\ k a = Ok b.
Proof.
  destruct r as [a|e]; simpl; intros H.
  - exists a. split; [reflexivity | exact H].
  - discriminate H.
Qed.

(** ** Substrings *)

Lemma prefix_app (p b : string) : String.prefix p (p ++ b) = true.
Proof.
  induction p as [|c p IH]; simpl.
  - destruct b; reflexivity.
  - destruct (ascii_dec c c) as [_|n]; [exact IH | contradiction n; reflexivity].
Qed.

Lemma prefix_split (p s : string) :
  String.prefix p s = true -> exists b, s = (p ++ b)%string.
Proof.
  revert s. induction p as [|c p IH]; intros s H.
  - exists s. reflexivity.
  - destruct s as [|c' s]; simpl in H; [discriminate H|].
    destruct (ascii_dec c c') as [->|_]; [|discriminate H].
    destruct (IH s H) as [b ->]. exists b. reflexivity.
Qed.

Lemma contains_unfold (needle hay : string) :
  contains needle hay =
  String.prefix needle hay
  || match hay with
     | EmptyString => false
     | String _ hay' => contains needle hay'
     end.
Proof. destruct hay; reflexivity. Qed.

(** [contains] is substring membership. *)
Lemma contains_spec (needle hay : string) :
  contains needle hay = true <-> exists a b, hay = (a ++ needle ++ b)%string.
Proof.
  split.
  - induction hay as [|c hay IH]; rewrite contains_unfold; intros H.
    + rewrite orb_false_r in H. destruct (prefix_split _ _ H) as [b Hb].
      exists EmptyString, b. exact Hb.
    + apply orb_true_iff in H. destruct H as [H|H].
      * destruct (prefix_split _ _ H) as [b Hb]. exists EmptyString, b. exact Hb.
      * destruct (IH H) as (a & b & ->). exists (String c a), b. reflexivity.
  - intros (a & b & ->). induction a as [|c a IH].
    + change (EmptyString ++ needle ++ b)%string with (needle ++ b)%string.
      rewrite contains_unfold. now rewrite prefix_app.
    + change (String c a ++ needle ++ b)%string with (String c (a ++ needle ++ b)).
      rewrite contains_unfold. cbv iota. rewrite IH. apply orb_true_r.
Qed.

Lemma string_length_app (a b : string) :
  String.length (a ++ b) = (String.length a + String.length b)%nat.
Proof. induction a as [|c a IH]; simpl; [reflexivity | now rewrite IH]. Qed.

Lemma string_app_assoc (a b c : string) : ((a ++ b) ++ c = a ++ b ++ c)%string.
Proof. induction a as [|x a IH]; simpl; [reflexivity | now rewrite IH]. Qed.

Lemma substring_app_l (a b : string) : substring 0 (String.length a) (a ++ b) = a.
Proof.
  induction a as [|c a IH]; simpl.
  - now destruct b.
  - now rewrite IH.
Qed.

Lemma substring_app_r (a b : string) (n : nat) :
  substring (String.length a) n (a ++ b) = substring 0 n b.
Proof. induction a as [|c a IH]; simpl; [reflexivity | exact IH]. Qed.

Lemma rstrip_app_nonspace (a : string) (c : ascii) :
  is_space c = false ->
  rstrip_by is_space (a ++ String c EmptyString) = (a ++ String c EmptyString)%string.
Proof.
  intros Hc. induction a as [|x a IH]; simpl.
  - now rewrite Hc.
  - rewrite IH. now destruct (a ++ String c EmptyString)%string eqn:E; [destruct a; discriminate E|].
Qed.

(** A text between two characters that are no white space is its own
    [strip]. *)
Lemma strip_delimited (c1 c2 : ascii) (mid : string) :
  is_space c1 = false -> is_space c2 = false ->
  strip (String c1 (mid ++ String c2 EmptyString))
  = String c1 (mid ++ String c2 EmptyString).
Proof.
  intros H1 H2. unfold strip. cbn [lstrip_by]. rewrite H1.
  exact (rstrip_app_nonspace (String c1 mid) c2 H2).
Qed.

(** ** Dictionaries *)

Lemma py_get_dict (d : dict) (k : string) (default : value) :
  py_get (VDict d) k default = Ok (dict_get_or d k default).
Proof. unfold py_get, dict_get_or. now destruct (dict_get d k). Qed.

Lemma dict_get_set_same (d : dict) (k : string) (v : value) :
  dict_get (dict_set d k v) k = Some v.
Proof.
  induction d as [|[k' v'] d IH]; simpl.
  - now rewrite String.eqb_refl.
  - destruct (String.eqb k' k) eqn:E; simpl; rewrite E; [reflexivity | exact IH].
Qed.

Lemma dict_get_set_other (d : dict) (k k0 : string) (v : value) :
  k <> k0 -> dict_get (dict_set d k v) k0 = dict_get d k0.
Proof.
  intros Hk. induction d as [|[k' v'] d IH]; simpl.
  - destruct (String.eqb k k0) eqn:E; [apply String.eqb_eq in E; contradiction | reflexivity].
  - destruct (String.eqb k' k) eqn:E; simpl.
    + apply String.eqb_eq in E. subst k'.
      destruct (String.eqb k k0) eqn:E0; [apply String.eqb_eq in E0; contradiction | reflexivity].
    + destruct (String.eqb k' k0); [reflexivity | exact IH].
Qed.

Lemma dict_has_true (d : dict) (k : string) :
  dict_has d k = true <-> In k (dict_keys d).
Proof.
  unfold dict_has. induction d as [|[k' v'] d IH]; simpl.
  - split; [discriminate | contradiction].
  - destruct (String.eqb k' k) eqn:E.
    + apply String.eqb_eq in E. split; [intros _; left; exact E | reflexivity].
    + rewrite IH. split; [intros H; right; exact H|].
      intros [H|H]; [|exact H]. subst k'. rewrite String.eqb_refl in E. discriminate E.
Qed.

(** Assigning to a key that is present keeps the keys and their order. *)
Lemma dict_keys_set_present (d : dict) (k : string) (v : value) :
  dict_has d k = true -> dict_keys (dict_set d k v) = dict_keys d.
Proof.
  unfold dict_has, dict_keys. induction d as [|[k' v'] d IH]; simpl.
  - discriminate.
  - destruct (String.eqb k' k) eqn:E; simpl; [reflexivity|].
    intros H. now rewrite IH.
Qed.

Lemma dict_has_set (d : dict) (k k0 : string) (v : value) :
  dict_has d k = true -> dict_has (dict_set d k v) k0 = dict_has d k0.
Proof.
  intros H. destruct (dict_has d k0) eqn:E.
  - apply dict_has_true. rewrite dict_keys_set_present by exact H. now apply dict_has_true.
  - destruct (dict_has (dict_set d k v) k0) eqn:E'; [|reflexivity].
    apply dict_has_true in E'. rewrite dict_keys_set_present in E' by exact H.
    apply dict_has_true in E'. congruence.
Qed.

(** ** Keys *)

Lemma key_eqb_eq (a b : key) : key_eqb a b = true <-> a = b.
Proof.
  destruct a, b; simpl; try (split; [discriminate | intros H; discriminate H || reflexivity]);
    try (split; reflexivity).
  - rewrite Bool.eqb_true_iff. split; congruence.
  - rewrite andb_true_iff, !Z.eqb_eq. split; [intros [-> ->]; reflexivity | intros H; inversion H; auto].
  - rewrite String.eqb_eq. split; congruence.
Qed.

Lemma key_eqb_refl (a : key) : key_eqb a a = true.
Proof. now apply key_eqb_eq. Qed.

Lemma key_mem_In (k : key) (seen : list key) : key_mem k seen = true <-> In k seen.
Proof.
  unfold key_mem. rewrite existsb_exists. split.
  - intros (x & Hx & E). apply key_eqb_eq in E. now subst.
  - intros H. exists k. split; [exact H | apply key_eqb_refl].
Qed.

(** ** Exact comparison *)

Lemma fin_compare_antisym (m1 e1 m2 e2 : Z) :
  fin_compare m2 e2 m1 e1 = CompOpp (fin_compare m1 e1 m2 e2).
Proof. unfold fin_compare. rewrite (Z.min_comm e2 e1). apply Z.compare_antisym. Qed.

Lemma xcompare_antisym (a b : xreal) :
  xcompare b a = option_map CompOpp (xcompare a b).
Proof.
  destruct a as [|s1|m1 e1], b as [|s2|m2 e2]; simpl; try reflexivity.
  - destruct s1, s2; reflexivity.
  - destruct s1; reflexivity.
  - destruct s2; reflexivity.
  - now rewrite fin_compare_antisym.
Qed.

Lemma num_gt_lt (a b : num) : num_gt a b = num_lt b a.
Proof.
  unfold num_gt, num_lt, num_compare.
  rewrite (xcompare_antisym (xreal_of_num a) (xreal_of_num b)).
  destruct (xcompare (xreal_of_num a) (xreal_of_num b)) as [[]|]; reflexivity.
Qed.

Lemma num_lt_le (a b : num) : num_lt a b = true -> num_le a b = true.
Proof. unfold num_lt, num_le. destruct (num_compare a b) as [[]|]; auto. Qed.

Lemma num_compare_int (x y : Z) : num_compare (NInt x) (NInt y) = Some (x ?= y).
Proof.
  unfold num_compare, xcompare, xreal_of_num, fin_compare.
  rewrite Z.min_id, Z.sub_diag. simpl (2 ^ 0). now rewrite !Z.mul_1_r.
Qed.

Lemma num_lt_int (x y : Z) : num_lt (NInt x) (NInt y) = (x <? y).
Proof. unfold num_lt. rewrite num_compare_int. unfold Z.ltb. destruct (x ?= y); reflexivity. Qed.

Lemma num_gt_int (x y : Z) : num_gt (NInt x) (NInt y) = (y <? x).
Proof. rewrite num_gt_lt. apply num_lt_int. Qed.

Lemma num_le_int (x y : Z) : num_le (NInt x) (NInt y) = (x <=? y).
Proof. unfold num_le. rewrite num_compare_int. unfold Z.leb. destruct (x ?= y); reflexivity. Qed.

End PyFacts.

(* ====================================================================== *)
(** * The research tool: deduplication and the report *)
(* ====================================================================== *)

Module ResearchFacts.

Import Research PyFacts.
Local Open Scope list_scope.

(** ** The loop body, by the title of the article *)

Lemma dedup_step_eq (st : dedup_state) (article : value) :
  dedup_step st article =
  match title_of article with
  | Raise e => Raise e
  | Ok (k, t) =>
      if negb (key_mem k (seen_titles st)) && t
      then Ok (mk_dedup (unique_articles st ++ [article]) (k :: seen_titles st))
      else Ok st
  end.
Proof.
  unfold dedup_step, title_of.
  destruct (py_get article "title" (VStr "")) as [title|e]; simpl; [|reflexivity].
  destruct (hash_key title) as [k|e]; reflexivity.
Qed.

(** The three ways one iteration can go. *)
Variant step_case (st : dedup_state) (article : value) : result dedup_state -> Prop :=
| step_raise (e : exn) :
    title_of article = Raise e -> step_case st article (Raise e)
| step_skip (k : key) (t : bool) :
    title_of article = Ok (k, t) ->
    (t = true -> In k (seen_titles st)) ->
    step_case st article (Ok st)
| step_add (k : key) :
    title_of article = Ok (k, true) ->
    ~ In k (seen_titles st) ->
    step_case st article
      (Ok (mk_dedup (unique_articles st ++ [article]) (k :: seen_titles st))).

Lemma dedup_step_case (st : dedup_state) (article : value) :
  step_case st article (dedup_step st article).
Proof.
  rewrite dedup_step_eq.
  destruct (title_of article) as [[k t]|e] eqn:T.
  - destruct (key_mem k (seen_titles st)) eqn:M; simpl.
    + apply (step_skip _ _ k t T). intros _. now apply key_mem_In.
    + destruct t.
      * apply (step_add _ _ k T). intros H. apply key_mem_In in H. congruence.
      * apply (step_skip _ _ k false T). discriminate.
  - now apply step_raise.
Qed.

Lemma dedup_loop_app (l1 l2 : list value) (st : dedup_state) :
  dedup_loop (l1 ++ l2) st = bind (dedup_loop l1 st) (dedup_loop l2).
Proof.
  revert st. induction l1 as [|a l1 IH]; intros st; simpl.
  - reflexivity.
  - destruct (dedup_step st a) as [st1|e]; simpl; [apply IH | reflexivity].
Qed.

(** ** What a run of the loop adds *)

(** [first_with l a]: [a] stands in [l] with a true title that no article
    before it has, and that is not in [seen]. *)
Definition first_in (seen : list key) (l : list value) (a : value) : Prop :=
  exists l1 l2 k,
    l = l1 ++ a :: l2 /\ title_of a = Ok (k, true) /\ ~ In k seen /\
    forall b, In b l1 -> title_of b <> Ok (k, true).

Lemma first_in_later (seen : list key) (x : value) (l : list value) (a : value) :
  (forall k, title_of x = Ok (k, true) -> title_of a <> Ok (k, true)) ->
  first_in seen l a -> first_in seen (x :: l) a.
Proof.
  intros Hx (l1 & l2 & k & -> & Ta & Hk & Hb).
  exists (x :: l1), l2, k. repeat split; trivial.
  intros b [<-|Hin]; [|now apply Hb].
  intros Tx. exact (Hx k Tx Ta).
Qed.

Lemma dedup_loop_adds (l : list value) (st st' : dedup_state) :
  dedup_loop l st = Ok st' ->
  exists u ks,
    unique_articles st' = unique_articles st ++ u /\
    seen_titles st' = ks ++ seen_titles st /\
    subseq u l /\
    (forall a, In a u <-> first_in (seen_titles st) l a) /\
    (forall k, In k ks <-> exists a, In a u /\ title_of a = Ok (k, true)) /\
    NoDup (map title_of u).
Proof.
  revert st. induction l as [|x l IH]; intros st H; simpl in H.
  - injection H as <-. exists [], []. rewrite app_nil_r.
    repeat split; try constructor; try contradiction.
    + intros (l1 & l2 & k & E & _). destruct l1; discriminate E.
    + intros (a & [] & _).
  - destruct (dedup_step_case st x) as [e T|k t T Hseen|k T Hnew]; simpl in H.
    + discriminate H.
    + destruct (IH st H) as (u & ks & Hu & Hk & Hs & Hin & Hks & Hnd).
      exists u, ks. repeat split; trivial; try apply Hks.
      * now constructor.
      * intros Ha. apply Hin in Ha. apply first_in_later; [|exact Ha].
        intros k' Tx Ta. destruct Ha as (_ & _ & k'' & _ & Ta' & Hk'' & _).
        rewrite T in Tx. injection Tx as -> ->. rewrite Ta in Ta'. injection Ta' as <-.
        apply Hk''. now apply Hseen.
      * intros (l1 & l2 & k' & E & Ta & Hk' & Hb). apply Hin.
        destruct l1 as [|y l1]; simpl in E; injection E as -> ->.
        -- rewrite T in Ta. injection Ta as -> ->. contradiction Hk'. now apply Hseen.
        -- exists l1, l2, k'. repeat split; trivial. intros b Hb'. apply Hb. now right.
    + destruct (IH _ H) as (u & ks & Hu & Hk & Hs & Hin & Hks & Hnd).
      simpl in Hu, Hk, Hin.
      exists (x :: u), (ks ++ [k]). rewrite <- app_assoc in Hu. rewrite <- (app_assoc ks).
      simpl in Hu |- *.
      split; [exact Hu|]. split; [exact Hk|]. split; [now constructor|].
      assert (Hx : ~ In (title_of x) (map title_of u)).
      { intros Hm. apply in_map_iff in Hm. destruct Hm as (a & Ea & Ha).
        apply Hin in Ha. destruct Ha as (_ & _ & k' & _ & Ta & Hk' & _).
        rewrite T, Ta in Ea. injection Ea as ->. apply Hk'. now left. }
      split; [|split].
      * intros a. split.
        -- intros [<-|Ha].
           ++ exists [], l, k. repeat split; trivial. contradiction.
           ++ apply Hin in Ha. apply first_in_later.
              ** intros k' Tx Ta. destruct Ha as (_ & _ & k'' & _ & Ta' & Hk'' & _).
                 rewrite T in Tx. injection Tx as <-. rewrite Ta in Ta'. injection Ta' as <-.
                 apply Hk''. now left.
              ** destruct Ha as (l1 & l2 & k' & E & Ta & Hk' & Hb).
                 exists l1, l2, k'. repeat split; trivial. intros Hk''. apply Hk'. now right.
        -- intros (l1 & l2 & k' & E & Ta & Hk' & Hb).
           destruct l1 as [|y l1]; simpl in E; injection E as -> ->; [now left|].
           right. apply Hin. exists l1, l2, k'. repeat split; trivial.
           ++ intros [<-|Hk'']; [|contradiction].
              apply (Hb y); [now left | exact T].
           ++ intros b Hb'. apply Hb. now right.
      * intros k'. rewrite in_app_iff. split.
        -- intros [Hk'|[<-|[]]].
           ++ apply Hks in Hk'. destruct Hk' as (a & Ha & Ta). exists a. split; [now right | exact Ta].
           ++ exists x. split; [now left | exact T].
        -- intros (a & [<-|Ha] & Ta).
           ++ rewrite T in Ta. injection Ta as ->. right. now left.
           ++ left. apply Hks. now exists a.
      * constructor; assumption.
Qed.

(** ** A second pass changes nothing *)

Lemma dedup_loop_seen (l : list value) (st st' : dedup_state) :
  dedup_loop l st = Ok st' ->
  (forall k, In k (seen_titles st) -> In k (seen_titles st')) /\
  Forall (fun a => exists k t, title_of a = Ok (k, t) /\ (t = true -> In k (seen_titles st'))) l.
Proof.
  revert st. induction l as [|x l IH]; intros st H; simpl in H.
  - injection H as <-. split; [trivial | constructor].
  - destruct (dedup_step_case st x) as [e T|k t T Hseen|k T Hnew]; simpl in H.
    + discriminate H.
    + destruct (IH _ H) as [Hmono Hall]. split; [exact Hmono|].
      constructor; [|exact Hall]. exists k, t. split; [exact T|]. intros Ht. apply Hmono. now apply Hseen.
    + destruct (IH _ H) as [Hmono Hall]. simpl in Hmono. split.
      * intros k' Hk'. apply Hmono. now right.
      * constructor; [|exact Hall]. exists k, true. split; [exact T|]. intros _. apply Hmono. now left.
Qed.

Lemma dedup_loop_fixed (l : list value) (st : dedup_state) :
  Forall (fun a => exists k t, title_of a = Ok (k, t) /\ (t = true -> In k (seen_titles st))) l ->
  dedup_loop l st = Ok st.
Proof.
  induction 1 as [|x l (k & t & T & Hk) _ IH]; simpl.
  - reflexivity.
  - destruct (dedup_step_case st x) as [e T'|k' t' T' Hseen|k' T' Hnew]; simpl.
    + congruence.
    + exact IH.
    + rewrite T in T'. injection T' as -> ->. contradiction Hnew. now apply Hk.
Qed.

Lemma dedup_loop_twice (l : list value) (st : dedup_state) :
  dedup_loop (l ++ l) st = dedup_loop l st.
Proof.
  rewrite dedup_loop_app. destruct (dedup_loop l st) as [st'|e] eqn:H; simpl; [|reflexivity].
  apply dedup_loop_fixed. now apply (dedup_loop_seen l st).
Qed.

(** ** The loop on articles and on its own output *)

Lemma title_of_article (a : value) :
  is_article a = true <-> exists k t, title_of a = Ok (k, t).
Proof.
  unfold is_article, title_of. destruct a as [| | | | |l|d]; simpl;
    try (split; [discriminate | intros (k & t & H); discriminate H]).
  destruct (dict_get d "title") as [[| | | | |l|d']|]; simpl;
    try (split; [intros _; eexists; eexists; reflexivity | reflexivity]);
    (split; [discriminate | intros (k & t & H); discriminate H]).
Qed.

Lemma dedup_loop_total (l : list value) (st : dedup_state) :
  Forall (fun a => is_article a = true) l -> exists st', dedup_loop l st = Ok st'.
Proof.
  intros H. revert st. induction H as [|x l Hx _ IH]; intros st; simpl.
  - now exists st.
  - apply title_of_article in Hx. destruct Hx as (k & t & T).
    destruct (dedup_step_case st x) as [e T'|k' t' T' Hseen|k' T' Hnew]; simpl.
    + congruence.
    + apply IH.
    + apply IH.
Qed.

Lemma dedup_loop_distinct (u : list value) (st : dedup_state) :
  NoDup (map title_of u) ->
  (forall a, In a u -> exists k, title_of a = Ok (k, true) /\ ~ In k (seen_titles st)) ->
  exists ks, dedup_loop u st = Ok (mk_dedup (unique_articles st ++ u) (ks ++ seen_titles st)).
Proof.
  revert st. induction u as [|x u IH]; intros st Hnd Hall; simpl.
  - exists []. rewrite app_nil_r. now destruct st.
  - apply NoDup_cons_iff in Hnd. destruct Hnd as [Hx Hnd].
    destruct (Hall x (or_introl eq_refl)) as (k & T & Hk).
    destruct (dedup_step_case st x) as [e T'|k' t' T' Hseen|k' T' Hnew]; simpl.
    + congruence.
    + rewrite T in T'. injection T' as <- <-. contradiction Hk. now apply Hseen.
    + rewrite T in T'. injection T' as <-.
      destruct (IH (mk_dedup (unique_articles st ++ [x]) (k :: seen_titles st)) Hnd) as [ks Hks].
      * intros a Ha. destruct (Hall a (or_intror Ha)) as (ka & Ta & Hka).
        exists ka. split; [exact Ta|]. simpl. intros [<-|Hin]; [|contradiction].
        apply Hx. apply in_map_iff. exists a. split; [congruence | exact Ha].
      * exists (ks ++ [k]). rewrite Hks. simpl. now rewrite <- !app_assoc.
Qed.

Lemma dedup_total (l : list value) :
  Forall (fun a => is_article a = true) l -> exists unique, dedup l = Ok unique.
Proof.
  intros H. unfold dedup.
  destruct (dedup_loop_total l (mk_dedup [] []) H) as [st' ->].
  now exists (unique_articles st').
Qed.

(** A true title is the title of a JSON object, present and not empty. *)
Lemma true_title (a : value) (k : key) :
  title_of a = Ok (k, true) ->
  exists d title, a = VDict d /\ dict_get d "title" = Some title /\
                  title <> VStr "" /\ truthy title = true.
Proof.
  unfold title_of. destruct a as [| | | | |l|d]; simpl; try discriminate.
  destruct (dict_get d "title") as [title|] eqn:E; simpl.
  - destruct (hash_key title) as [k'|e]; simpl; [|discriminate].
    intros H. injection H as _ Ht. exists d, title. repeat split; trivial.
    intros ->. discriminate Ht.
  - discriminate.
Qed.

(** C6: the deduplication by title is idempotent (the list fed twice gives
    what the list gives, and the output deduplicated again is itself),
    keeps the order of the articles, keeps for each title its first article
    and only that one, and keeps no article whose title is empty or
    missing. *)
Theorem dedup_idempotent_first_wins (all_articles : list value) :
  dedup (all_articles ++ all_articles) = dedup all_articles /\
  (Forall (fun a => is_article a = true) all_articles ->
   exists unique, dedup all_articles = Ok unique) /\
  forall unique, dedup all_articles = Ok unique ->
    dedup unique = Ok unique /\
    subseq unique all_articles /\
    NoDup (map title_of unique) /\
    (forall a, In a unique <->
       exists before after k,
         all_articles = before ++ a :: after /\
         title_of a = Ok (k, true) /\
         forall b, In b before -> title_of b <> Ok (k, true)) /\
    (forall a, In a unique ->
       exists d title, a = VDict d /\ dict_get d "title" = Some title /\
                       title <> VStr "" /\ truthy title = true).
Proof.
  unfold dedup. split; [|split].
  - now rewrite dedup_loop_twice.
  - fold (dedup all_articles). apply dedup_total.
  - intros unique H. apply bind_ok in H. destruct H as (st' & H & E). injection E as <-.
    destruct (dedup_loop_adds _ _ _ H) as (u & ks & Hu & _ & Hs & Hin & _ & Hnd).
    simpl in Hu, Hin. rewrite Hu.
    assert (Hfirst : forall a, In a u ->
              exists k, title_of a = Ok (k, true) /\ ~ In k (seen_titles (mk_dedup [] []))).
    { intros a Ha. apply Hin in Ha. destruct Ha as (_ & _ & k & _ & T & _). exists k. now split. }
    split; [|split; [exact Hs | split; [exact Hnd | split]]].
    + destruct (dedup_loop_distinct u (mk_dedup [] []) Hnd Hfirst) as [ks' ->]. reflexivity.
    + intros a. rewrite Hin. unfold first_in. split.
      * intros (l1 & l2 & k & E & T & _ & Hb). now exists l1, l2, k.
      * intros (l1 & l2 & k & E & T & Hb). exists l1, l2, k. repeat split; trivial.
        intros [].
    + intros a Ha. destruct (Hfirst a Ha) as (k & T & _). exact (true_title a k T).
Qed.

Definition sample_articles : list value :=
  [ VDict [("title", VStr "Solar moratorium lifted"); ("source", VStr "a")];
    VDict [("title", VStr "")];
    VDict [("title", VStr "Net metering update")];
    VDict [("uuid", VStr "no title")];
    VDict [("title", VStr "Solar moratorium lifted"); ("source", VStr "b")] ].

Lemma dedup_idempotent_first_wins_witness :
  dedup (sample_articles ++ sample_articles) = dedup sample_articles /\
  subseq [nth 0 sample_articles VNone; nth 2 sample_articles VNone] sample_articles.
Proof.
  destruct (dedup_idempotent_first_wins sample_articles) as (Htwice & _ & Hspec).
  split; [exact Htwice|].
  apply (Hspec [nth 0 sample_articles VNone; nth 2 sample_articles VNone]).
  reflexivity.
Defined.

(** ** The unique articles of a list *)

(** What the loop leaves of a list: some of its articles in their order,
    no two with the same title, each the first of the list with its title,
    none with an empty or a missing title. *)
Lemma dedup_unique (l unique : list value) :
  dedup l = Ok unique ->
  subseq unique l /\
  NoDup (map title_of unique) /\
  (forall a, In a unique <->
     exists before after k,
       l = before ++ a :: after /\
       title_of a = Ok (k, true) /\
       forall b, In b before -> title_of b <> Ok (k, true)) /\
  (forall a, In a unique ->
     exists d title, a = VDict d /\ dict_get d "title" = Some title /\
                     title <> VStr "" /\ truthy title = true).
Proof.
  unfold dedup. intros H. apply bind_ok in H. destruct H as (st' & H & E).
  assert (Hu' : unique = unique_articles st') by congruence. subst unique.
  destruct (dedup_loop_adds _ _ _ H) as (u & ks & Hu & _ & Hs & Hin & _ & Hnd).
  simpl in Hu, Hin. rewrite Hu.
  split; [exact Hs | split; [exact Hnd | split]].
  - intros a. rewrite Hin. unfold first_in. split.
    + intros (l1 & l2 & k & E' & T & _ & Hb). now exists l1, l2, k.
    + intros (l1 & l2 & k & E' & T & Hb). exists l1, l2, k. repeat split; trivial.
      intros [].
  - intros a Ha. apply Hin in Ha. destruct Ha as (_ & _ & k & _ & T & _).
    exact (true_title a k T).
Qed.

(** Titles that are texts are compared as texts: no two of the unique
    articles have the same one. *)
Lemma distinct_title_texts (unique : list value) :
  NoDup (map title_of unique) ->
  forall i j d1 d2 s,
    nth_error unique i = Some (VDict d1) ->
    nth_error unique j = Some (VDict d2) ->
    dict_get d1 "title" = Some (VStr s) ->
    dict_get d2 "title" = Some (VStr s) ->
    i = j.
Proof.
  intros Hnd i j d1 d2 s Hi Hj H1 H2.
  assert (T : forall d, dict_get d "title" = Some (VStr s) ->
                        title_of (VDict d) = Ok (KStr s, truthy (VStr s))).
  { intros d Hd. unfold title_of, py_get. rewrite Hd. reflexivity. }
  apply (proj1 (NoDup_nth_error (map title_of unique)) Hnd).
  - rewrite length_map. apply nth_error_Some. rewrite Hi. discriminate.
  - rewrite !nth_error_map, Hi, Hj. cbn [option_map].
    now rewrite (T d1 H1), (T d2 H2).
Qed.

(** ** The report *)

Section Report.

Variable json_dumps : value -> string.
Variable _perform_news_search : string -> string -> string -> list value.

(** The loop of lines 69-71 concatenates the per-phrase results. *)
Lemma gather_concat (terms : list string) (api_token : string) :
  gather _perform_news_search terms api_token =
  List.concat (map (fun term => _perform_news_search term api_token base_url) terms).
Proof.
  unfold gather.
  enough (G : forall acc,
             fold_left
               (fun all_articles term =>
                  all_articles ++ _perform_news_search term api_token base_url) terms acc =
             acc ++ List.concat (map (fun term => _perform_news_search term api_token base_url) terms))
    by apply (G []).
  induction terms as [|t terms IH]; intros acc; simpl.
  - now rewrite app_nil_r.
  - rewrite IH. now rewrite app_assoc.
Qed.

(** C7: the research tool concatenates the per-phrase article lists,
    deduplicates them by title (of the concatenation it keeps, in their
    order, the articles that are the first with their title, no two with the
    same title and none with an empty or missing one) and returns the JSON
    text of an object with the first 10 unique articles, the number of
    unique articles and the location given, or General when there is
    none. *)
Theorem research_tool_report (NEWS_API_TOKEN : string) (location : option string) :
  NEWS_API_TOKEN <> "" ->
  let phrases :=
    match location with
    | None | Some "" => search_terms_list
    | Some loc => map (fun term => (term ++ " " ++ loc)%string) search_terms_list
    end in
  let per_phrase :=
    map (fun term => _perform_news_search term NEWS_API_TOKEN base_url) phrases in
  let all_articles := List.concat per_phrase in
  (Forall (fun a => is_article a = true) all_articles ->
   exists text,
     site_impact_research_tool json_dumps _perform_news_search NEWS_API_TOKEN location
     = Ok text) /\
  forall text,
    site_impact_research_tool json_dumps _perform_news_search NEWS_API_TOKEN location
    = Ok text ->
    exists unique payload,
      text = json_dumps (VDict payload) /\
      dict_keys payload = ["total_articles"; "articles"; "search_location"] /\
      dict_get payload "articles" = Some (VList (firstn 10 unique)) /\
      dict_get payload "total_articles" = Some (VInt (Z.of_nat (List.length unique))) /\
      dict_get payload "search_location"
      = Some (VStr match location with
                   | None | Some "" => "General"
                   | Some loc => loc
                   end) /\
      dedup all_articles = Ok unique /\
      subseq unique all_articles /\
      NoDup (map title_of unique) /\
      (forall i j d1 d2 s,
         nth_error unique i = Some (VDict d1) ->
         nth_error unique j = Some (VDict d2) ->
         dict_get d1 "title" = Some (VStr s) ->
         dict_get d2 "title" = Some (VStr s) ->
         i = j) /\
      (forall a, In a unique <->
         exists before after k,
           all_articles = before ++ a :: after /\
           title_of a = Ok (k, true) /\
           forall b, In b before -> title_of b <> Ok (k, true)) /\
      (forall a, In a unique ->
         exists d title, a = VDict d /\ dict_get d "title" = Some title /\
                         title <> VStr "" /\ truthy title = true).
Proof.
  intros Htoken phrases per_phrase all_articles.
  assert (Hrun : site_impact_research_tool json_dumps _perform_news_search
                   NEWS_API_TOKEN location
                 = bind (dedup all_articles)
                     (fun unique => Ok (json_dumps (research_payload unique location)))).
  { unfold site_impact_research_tool.
    destruct (String.eqb NEWS_API_TOKEN "") eqn:E; [apply String.eqb_eq in E; contradiction|].
    rewrite gather_concat. reflexivity. }
  rewrite Hrun. split.
  - intros Hall. destruct (dedup_total all_articles Hall) as [unique Hu].
    rewrite Hu. eexists. reflexivity.
  - intros text H. apply bind_ok in H. destruct H as (unique & Hu & Htext).
    destruct (dedup_unique _ _ Hu) as (Hs & Hnd & Hin & Htitle).
    exists unique,
      [ ("total_articles", VInt (Z.of_nat (List.length unique)));
        ("articles", VList (firstn 10 unique));
        ("search_location", VStr (search_location location)) ].
    split; [unfold research_payload in Htext; congruence|].
    repeat (split; [reflexivity|]).
    split; [exact Hu|]. split; [exact Hs|]. split; [exact Hnd|].
    split; [exact (distinct_title_texts unique Hnd)|].
    split; [exact Hin | exact Htitle].
Qed.

End Report.

Lemma research_tool_report_witness :
  exists unique payload,
    site_impact_research_tool (fun _ => "{}") (fun _ _ _ => sample_articles) "token"
      (Some "California")
    = Ok "{}" /\
    unique = [nth 0 sample_articles VNone; nth 2 sample_articles VNone] /\
    dict_get payload "total_articles" = Some (VInt 2) /\
    NoDup (map title_of unique).
Proof.
  destruct (research_tool_report (fun _ => "{}") (fun _ _ _ => sample_articles)
              "token" (Some "California")) as [_ H]; [discriminate|].
  destruct (H "{}" eq_refl)
    as (unique & payload & _ & _ & _ & Htotal & _ & Hu & _ & Hnd & _).
  assert (E : unique = [nth 0 sample_articles VNone; nth 2 sample_articles VNone])
    by (vm_compute in Hu; injection Hu as <-; reflexivity).
  exists unique, payload. split; [reflexivity|]. split; [exact E|].
  split; [|exact Hnd]. rewrite E in Htotal. exact Htotal.
Defined.

End ResearchFacts.

(* ====================================================================== *)
(** * The permitting tools *)
(* ====================================================================== *)

Module PermittingFacts.

Import Permitting PyFacts.
Local Open Scope list_scope.

(** ** Merging into a dictionary *)

Lemma dict_get_absent (d : dict) (k : string) :
  ~ In k (dict_keys d) -> dict_get d k = None.
Proof.
  intros H. destruct (dict_get d k) eqn:E; [|reflexivity].
  contradiction H. apply dict_has_true. unfold dict_has. now rewrite E.
Qed.

Lemma dict_get_filter (f : string -> bool) (d : dict) (k : string) :
  dict_get (filter (fun kv => f (fst kv)) d) k = if f k then dict_get d k else None.
Proof.
  induction d as [|[k' v] d IH]; simpl.
  - now destruct (f k).
  - destruct (f k') eqn:F; simpl; destruct (String.eqb k' k) eqn:E.
    + apply String.eqb_eq in E. subst k'. now rewrite F.
    + exact IH.
    + apply String.eqb_eq in E. subst k'. rewrite F in IH. now rewrite F.
    + exact IH.
Qed.

Lemma dict_keys_filter (f : string -> bool) (d : dict) :
  dict_keys (filter (fun kv => f (fst kv)) d) = filter f (dict_keys d).
Proof.
  unfold dict_keys. induction d as [|[k v] d IH]; simpl; [reflexivity|].
  destruct (f k); simpl; now rewrite IH.
Qed.

(** [d.update(items)] when every key of [items] is a key of [d]: the keys of
    [d] stay, in their order, and each takes its value in [items] when it has
    one there. *)
Lemma dict_update_present (items d : dict) :
  (forall k, In k (dict_keys items) -> dict_has d k = true) ->
  NoDup (dict_keys items) ->
  dict_keys (dict_update d items) = dict_keys d /\
  forall k, dict_get (dict_update d items) k =
            match dict_get items k with
            | Some v => Some v
            | None => dict_get d k
            end.
Proof.
  unfold dict_update. revert d.
  induction items as [|[k1 v1] items IH]; intros d Hin Hnd; simpl.
  - split; reflexivity.
  - simpl in Hnd. apply NoDup_cons_iff in Hnd. destruct Hnd as [Hk1 Hnd].
    assert (H1 : dict_has d k1 = true) by (apply Hin; now left).
    destruct (IH (dict_set d k1 v1)) as [Hkeys Hget].
    + intros k Hk. rewrite dict_has_set by exact H1. apply Hin. now right.
    + exact Hnd.
    + split.
      * rewrite Hkeys. now apply dict_keys_set_present.
      * intros k. rewrite Hget. destruct (String.eqb k1 k) eqn:E.
        -- apply String.eqb_eq in E. subst k.
           rewrite (dict_get_absent items k1 Hk1). apply dict_get_set_same.
        -- destruct (dict_get items k); [reflexivity|].
           apply dict_get_set_other. intros ->. rewrite String.eqb_refl in E. discriminate E.
Qed.

(** ** The classifier *)

(** The local variable [jurisdiction], by the tokens of the lower-cased
    address. *)
Lemma classify_cases (address : string) :
  let la := occurs_in "los angeles" (lower address) \/ occurs_in "la" (lower address) in
  let sf := occurs_in "san francisco" (lower address) \/ occurs_in "sf" (lower address) in
  (la /\ classify address = "los_angeles") \/
  (~ la /\ sf /\ classify address = "san_francisco") \/
  (~ la /\ ~ sf /\ classify address = "california_default").
Proof.
  unfold classify, occurs_in. cbv zeta.
  rewrite <- !contains_spec.
  destruct (contains "los angeles" (lower address)) eqn:A;
    [left; split; [now left | reflexivity]|].
  destruct (contains "la" (lower address)) eqn:B;
    [left; split; [now right | reflexivity]|].
  assert (Hla : ~ (false = true \/ false = true)) by (intros [H|H]; discriminate H).
  right. simpl.
  destruct (contains "san francisco" (lower address)) eqn:C;
    [left; split; [exact Hla | split; [now left | reflexivity]]|].
  destruct (contains "sf" (lower address)) eqn:D;
    [left; split; [exact Hla | split; [now right | reflexivity]]|].
  right. split; [exact Hla | split; [exact Hla | reflexivity]].
Qed.

Section Tools.

Variable json_dumps : value -> string.
Variable json_loads : string -> result value.
Variable py_str : value -> string.

(** C5: the classifier is total; it tests the tokens on the lower-cased
    address and returns one of the three jurisdiction ids with the rule
    record of that id; the three addresses of the specification classify as
    stated. *)
Theorem classifier_total (address : string) :
  (exists jurisdiction rules,
     classify_jurisdiction_tool json_dumps address
     = Ok (json_dumps (VDict [ ("address", VStr address);
                               ("classified_jurisdiction", VStr jurisdiction);
                               ("jurisdiction_info", rules) ])) /\
     dict_get JURISDICTION_RULES jurisdiction = Some rules /\
     (jurisdiction = "los_angeles" \/ jurisdiction = "san_francisco"
      \/ jurisdiction = "california_default") /\
     let la := occurs_in "los angeles" (lower address) \/ occurs_in "la" (lower address) in
     let sf := occurs_in "san francisco" (lower address) \/ occurs_in "sf" (lower address) in
     (jurisdiction = "los_angeles" <-> la) /\
     (jurisdiction = "san_francisco" <-> ~ la /\ sf) /\
     (jurisdiction = "california_default" <-> ~ la /\ ~ sf)) /\
  classify_jurisdiction_tool json_dumps "123 Main St, Los Angeles, CA"
  = Ok (json_dumps (classification_payload "123 Main St, Los Angeles, CA" "los_angeles"
                      (nth 0 (map snd JURISDICTION_RULES) VNone))) /\
  classify_jurisdiction_tool json_dumps "1 Market St, San Francisco"
  = Ok (json_dumps (classification_payload "1 Market St, San Francisco" "san_francisco"
                      (nth 1 (map snd JURISDICTION_RULES) VNone))) /\
  classify_jurisdiction_tool json_dumps "Anytown, Nowhere"
  = Ok (json_dumps (classification_payload "Anytown, Nowhere" "california_default"
                      (nth 2 (map snd JURISDICTION_RULES) VNone))).
Proof.
  split; [|repeat split].
  unfold classify_jurisdiction_tool.
  exists (classify address).
  destruct (classify_cases address) as [[Hla E]|[(Hla & Hsf & E)|(Hla & Hsf & E)]];
    rewrite E; eexists; (split; [reflexivity|]); (split; [reflexivity|]).
  - split; [now left|]. cbv zeta. repeat split; trivial; try discriminate; tauto.
  - split; [right; now left|]. cbv zeta. repeat split; trivial; try discriminate; tauto.
  - split; [right; now right|]. cbv zeta. repeat split; trivial; try discriminate; tauto.
Qed.

(** ** Code fences *)

(** A text in a [json] fence is unfenced to the text inside it. *)
Lemma unfence_json_fence (text body : string) :
  strip text = ("```json" ++ body ++ "```")%string ->
  unfence text = strip body.
Proof.
  intros H. unfold unfence. rewrite H.
  assert (Hstart : startswith ("```json" ++ body ++ "```") "```json" = true)
    by apply prefix_app.
  assert (Hend : endswith ("```json" ++ body ++ "```") "```" = true).
  { unfold endswith. rewrite <- string_app_assoc, string_length_app.
    apply andb_true_iff. split.
    - apply Nat.leb_le. simpl. lia.
    - replace (String.length ("```json" ++ body) + String.length "```"
               - String.length "```")%nat
        with (String.length ("```json" ++ body)) by lia.
      rewrite substring_app_r. reflexivity. }
  rewrite Hstart, Hend. cbn [andb]. f_equal.
  unfold slice_inner. rewrite string_length_app. cbn [String.length].
  rewrite string_length_app. cbn [String.length].
  replace (7 + (String.length body + 3) - 3 - 7)%nat with (String.length body) by lia.
  change (substring 7 (String.length body) ("```json" ++ body ++ "```"))
    with (substring 0 (String.length body) (body ++ "```")).
  apply substring_app_l.
Qed.

Lemma unfence_fenced_text (body : string) :
  unfence ("```json" ++ body ++ "```") = strip body.
Proof.
  apply unfence_json_fence.
  change ("```json" ++ body ++ "```")%string
    with (String "`" ("``json" ++ body ++ "``" ++ String "`" EmptyString)).
  rewrite <- (string_app_assoc body "``"), <- (string_app_assoc "``json").
  now apply strip_delimited.
Qed.



(** ** The permit form *)

Lemma fill_form_filled (address : string) (rules : dict)
      (name permit_type requirements fees time : value) :
  dict_get rules "jurisdiction_name" = Some name ->
  dict_get rules "permit_type" = Some permit_type ->
  dict_get rules "requirements" = Some requirements ->
  dict_get rules "fees" = Some fees ->
  dict_get rules "processing_time" = Some time ->
  fill_form address (VDict rules)
  = Ok (filled_form address name permit_type requirements fees time).
Proof.
  intros H1 H2 H3 H4 H5. unfold fill_form, py_getitem.
  rewrite H1, H2, H3, H4, H5. reflexivity.
Qed.

Lemma merge_details_filled (form details : dict) :
  NoDup (dict_keys details) ->
  exists merged,
    merge_details form (VDict details) = Ok merged /\
    dict_keys merged = dict_keys form /\
    forall k, dict_get merged k =
              match dict_get details k with
              | Some v => if dict_has form k then Some v else dict_get form k
              | None => dict_get form k
              end.
Proof.
  intros Hnd. unfold merge_details. simpl.
  set (items := filter (fun kv => dict_has form (fst kv)) details).
  exists (dict_update form items). split; [reflexivity|].
  destruct (dict_update_present items form) as [Hkeys Hget].
  - intros k Hk. unfold items in Hk. rewrite (dict_keys_filter (dict_has form)) in Hk.
    now apply filter_In in Hk.
  - unfold items. rewrite (dict_keys_filter (dict_has form)). now apply NoDup_filter.
  - split; [exact Hkeys|]. intros k. rewrite Hget. unfold items.
    rewrite (dict_get_filter (dict_has form)).
    destruct (dict_has form k); destruct (dict_get details k); reflexivity.
Qed.

(** C8: for jurisdiction data that parse to an object holding the rules,
    the permit form is the template with the address, the five fields of the
    rules and the fixed submission date written over it, and then every
    system detail whose key is a key of the template written over that; a
    detail with another key is dropped. *)
Theorem permit_form_merge
        (address jurisdiction_data system_details : string) (info rules details : dict)
        (name permit_type requirements fees time contact : value) :
  json_loads (unfence jurisdiction_data) = Ok (VDict info) ->
  dict_get info "jurisdiction_info" = Some (VDict rules) ->
  dict_get rules "jurisdiction_name" = Some name ->
  dict_get rules "permit_type" = Some permit_type ->
  dict_get rules "requirements" = Some requirements ->
  dict_get rules "fees" = Some fees ->
  dict_get rules "processing_time" = Some time ->
  dict_get rules "contact" = Some contact ->
  parsed_details json_loads system_details = Some details ->
  NoDup (dict_keys details) ->
  exists permit_form,
    generate_permit_form_tool json_dumps json_loads py_str
      address jurisdiction_data system_details
    = Ok (json_dumps (permit_payload py_str permit_form contact fees time)) /\
    dict_keys permit_form = dict_keys PERMIT_TEMPLATE /\
    (forall k, In k (dict_keys PERMIT_TEMPLATE) ->
       dict_get permit_form k =
       match dict_get details k with
       | Some v => Some v
       | None => dict_get (filled_form address name permit_type requirements fees time) k
       end) /\
    (forall k, ~ In k (dict_keys PERMIT_TEMPLATE) -> dict_get permit_form k = None) /\
    (forall k, ~ In k [ "property_address"; "jurisdiction"; "permit_type";
                        "requirements_checklist"; "fees"; "processing_time";
                        "submission_date" ] ->
       dict_get (filled_form address name permit_type requirements fees time) k
       = dict_get PERMIT_TEMPLATE k).
Proof.
  intros Hinfo Hrules H1 H2 H3 H4 H5 H6 Hdetails Hnd.
  set (form := filled_form address name permit_type requirements fees time).
  assert (Hform : exists permit_form,
             (if negb (String.eqb system_details "")
              then (details <- _extract_json_from_text json_loads system_details ;;
                    merge_details form details)%py
              else Ok form) = Ok permit_form /\
             dict_keys permit_form = dict_keys form /\
             forall k, dict_get permit_form k =
                       match dict_get details k with
                       | Some v => if dict_has form k then Some v else dict_get form k
                       | None => dict_get form k
                       end).
  { unfold parsed_details in Hdetails.
    destruct (String.eqb system_details ""); simpl.
    - injection Hdetails as <-. exists form. repeat split.
    - destruct (_extract_json_from_text json_loads system_details) as [[| | | | | |d]|e];
        try discriminate Hdetails.
      injection Hdetails as ->. cbn [bind]. now apply merge_details_filled. }
  destruct Hform as (permit_form & Hrun & Hkeys & Hget).
  exists permit_form. split; [|split; [exact Hkeys | split; [|split]]].
  - unfold generate_permit_form_tool.
    assert (Hextract : _extract_json_from_text json_loads jurisdiction_data = Ok (VDict info))
      by (unfold _extract_json_from_text; now rewrite Hinfo).
    rewrite Hextract. cbn [bind].
    assert (Htruthy : truthy (VDict info) = true) by (destruct info; [discriminate Hrules | reflexivity]).
    rewrite Htruthy. simpl. unfold dict_has. rewrite Hrules. simpl.
    rewrite (fill_form_filled address rules name permit_type requirements fees time) by assumption.
    cbn [bind]. fold form. rewrite Hrun. simpl.
    now rewrite H6, H4, H5.
  - intros k Hk. rewrite Hget.
    assert (Hhas : dict_has form k = true) by (apply dict_has_true; exact Hk).
    now rewrite Hhas.
  - intros k Hk. rewrite Hget.
    assert (Hnone : dict_get form k = None) by (apply dict_get_absent; exact Hk).
    unfold dict_has. rewrite Hnone. now destruct (dict_get details k).
  - intros k Hk. unfold form, filled_form, PERMIT_TEMPLATE. cbn [dict_get].
    repeat match goal with
           | |- context [String.eqb ?a k] =>
               destruct (String.eqb a k) eqn:?E;
               [ apply String.eqb_eq in E; subst k;
                 try reflexivity; exfalso; apply Hk; simpl; tauto
               | clear E ]
           end.
    reflexivity.
Qed.


Lemma extract_parsed (text : string) (v : value) :
  json_loads (unfence text) = Ok v ->
  _extract_json_from_text json_loads text = Ok v.
Proof.
  intros H. unfold _extract_json_from_text. now rewrite H.
Qed.



End Tools.

(** ** The tools on sample texts *)

(** [json.loads] on the two texts used below, written without their
    quotation marks; every other text is rejected. *)
Definition sample_loads (text : string) : result value :=
  if String.eqb text "{jurisdiction_info: los_angeles}" then
    Ok (VDict [ ("address", VStr "8770 W Olympic Blvd, Los Angeles");
                ("classified_jurisdiction", VStr "los_angeles");
                ("jurisdiction_info", nth 0 (map snd JURISDICTION_RULES) VNone) ])
  else if String.eqb text "{system_size_kw: 7kW, colour: blue}" then
    Ok (VDict [ ("system_size_kw", VStr "7kW"); ("colour", VStr "blue") ])
  else if String.eqb text "{}" then Ok (VDict [])
  else Raise JSONDecodeError.




Definition sample_str (v : value) : string :=
  match v with
  | VStr s => s
  | VInt 500 => "500"
  | _ => "?"
  end.

Lemma permit_form_merge_witness :
  exists permit_form,
    generate_permit_form_tool (fun _ => "{}") sample_loads sample_str
      "8770 W Olympic Blvd, Los Angeles"
      "```json {jurisdiction_info: los_angeles} ```"
      "{system_size_kw: 7kW, colour: blue}"
    = Ok "{}" /\
    dict_get permit_form "system_size_kw" = Some (VStr "7kW") /\
    dict_get permit_form "colour" = None /\
    dict_get permit_form "fees" = Some (VInt 500).
Proof.
  destruct (permit_form_merge (fun _ => "{}") sample_loads sample_str
              "8770 W Olympic Blvd, Los Angeles"
              "```json {jurisdiction_info: los_angeles} ```"
              "{system_size_kw: 7kW, colour: blue}"
              [ ("address", VStr "8770 W Olympic Blvd, Los Angeles");
                ("classified_jurisdiction", VStr "los_angeles");
                ("jurisdiction_info", nth 0 (map snd JURISDICTION_RULES) VNone) ]
              [ ("jurisdiction_name", VStr "City of Los Angeles");
                ("permit_type", VStr "Solar Installation Permit");
                ("requirements",
                 strs [ "Site plan with solar array layout";
                        "Electrical single-line diagram";
                        "Structural calculations";
                        "Interconnection application";
                        "LADBS permit application" ]);
                ("fees", VInt 500);
                ("processing_time", VStr "4-6 weeks");
                ("contact", VStr "ladbs.lacity.org") ]
              [ ("system_size_kw", VStr "7kW"); ("colour", VStr "blue") ]
              (VStr "City of Los Angeles") (VStr "Solar Installation Permit")
              (strs [ "Site plan with solar array layout";
                      "Electrical single-line diagram";
                      "Structural calculations";
                      "Interconnection application";
                      "LADBS permit application" ])
              (VInt 500) (VStr "4-6 weeks") (VStr "ladbs.lacity.org"))
    as (permit_form & Hrun & _ & Hget & Hdrop & _); try reflexivity.
  - repeat constructor; simpl; intuition discriminate.
  - exists permit_form. split; [exact Hrun|]. split; [|split].
    + rewrite Hget; [reflexivity | simpl; tauto].
    + apply Hdrop. simpl. intuition discriminate.
    + rewrite Hget; [reflexivity | simpl; tauto].
Defined.



End PermittingFacts.

(* ====================================================================== *)
(** * The feasibility scorer *)
(* ====================================================================== *)

Module FeasibilityFacts.

Import Permitting Feasibility PyFacts.
Local Open Scope list_scope.

(** ** Statements *)

Lemma seq_ok {A B : Type} (s : stmt A) (k : A -> stmt B) (l l' : locals) (b : B) :
  seq s k l = (l', Ok b) ->
  exists a l1, s l = (l1, Ok a) /\ k a l1 = (l', Ok b).
Proof.
  unfold seq. destruct (s l) as [l1 [a|e]]; intros H.
  - now exists a, l1.
  - discriminate H.
Qed.

(** Both locals are assigned. *)
Definition bound (l : locals) : Prop :=
  exists f w, l = mk_locals (Some f) (Some w).

(** A statement that leaves assigned locals assigned. *)
Definition keeps_bound {A : Type} (s : stmt A) : Prop :=
  forall l l' r, s l = (l', r) -> bound l -> bound l'.

Lemma keeps_bound_eval {A : Type} (r : result A) : keeps_bound (eval r).
Proof. intros l l' r' H. injection H as <- _. trivial. Qed.

Lemma keeps_bound_ret {A : Type} (a : A) : keeps_bound (ret a).
Proof. intros l l' r' H. injection H as <- _. trivial. Qed.

Lemma keeps_bound_read {A : Type} (var : locals -> option A) : keeps_bound (read var).
Proof. intros l l' r' H. unfold read in H. destruct (var l); injection H as <- _; trivial. Qed.

Lemma keeps_bound_assign_fees (v : value) : keeps_bound (assign_fees v).
Proof.
  intros l l' r' H (f & w & ->). injection H as <- _. now exists v, w.
Qed.

Lemma keeps_bound_assign_weeks (w : Z) : keeps_bound (assign_processing_weeks w).
Proof.
  intros l l' r' H (f & w' & ->). injection H as <- _. now exists f, w.
Qed.

Lemma keeps_bound_seq {A B : Type} (s : stmt A) (k : A -> stmt B) :
  keeps_bound s -> (forall a, keeps_bound (k a)) -> keeps_bound (seq s k).
Proof.
  intros Hs Hk l l' r H Hl. unfold seq in H.
  destruct (s l) as [l1 [a|e]] eqn:E.
  - exact (Hk a l1 l' r H (Hs l l1 _ E Hl)).
  - injection H as <- _. exact (Hs l l1 _ E Hl).
Qed.

Lemma keeps_bound_if {A : Type} (b : bool) (s1 s2 : stmt A) :
  keeps_bound s1 -> keeps_bound s2 -> keeps_bound (if b then s1 else s2).
Proof. now destruct b. Qed.

Ltac keeps_bound :=
  repeat first
    [ apply keeps_bound_seq; [|intro]
    | apply keeps_bound_if
    | apply keeps_bound_eval
    | apply keeps_bound_ret
    | apply keeps_bound_read
    | apply keeps_bound_assign_fees
    | apply keeps_bound_assign_weeks ].


(** ** Small integers as floats *)

Lemma float_of_small (z : Z) : 0 <= z <= 100 -> exists x, float_of_Z z = Ok x.
Proof.
  intros Hz.
  assert (Hall : forallb (fun n => is_ok (float_of_Z (Z.of_nat n))) (List.seq 0 101) = true)
    by (vm_compute; reflexivity).
  rewrite forallb_forall in Hall.
  specialize (Hall (Z.to_nat z)). rewrite Z2Nat.id in Hall by lia.
  destruct (float_of_Z z) as [x|e].
  - now exists x.
  - discriminate Hall. apply in_seq. lia.
Qed.

(** ** The shape of the two scores *)

Lemma float_binop_float (op : float -> float -> float) (a b p : num) :
  float_binop op a b = Ok p -> exists y, p = NFloat y.
Proof.
  unfold float_binop. intros H.
  apply bind_ok in H. destruct H as (x & _ & H).
  apply bind_ok in H. destruct H as (y & _ & H).
  injection H as <-. now eexists.
Qed.

Lemma float_binop_small (op : float -> float -> float) (z : Z) (c : float) :
  0 <= z <= 100 -> exists x, float_binop op (NInt z) (NFloat c) = Ok (NFloat (op x c)).
Proof.
  intros Hz. destruct (float_of_small z Hz) as [x Hx].
  exists x. unfold float_binop, to_float. now rewrite Hx.
Qed.

Lemma permit_formula_shape (f : value) (w : Z) (s : num) :
  permit_formula f w = Ok s -> s = NInt 0 \/ exists x, s = NFloat x.
Proof.
  unfold permit_formula. destruct (as_num f) as [n|]; [|discriminate].
  intros H. apply bind_ok in H. destruct H as (q & Hq & H).
  apply bind_ok in H. destruct H as (a & Ha & H).
  apply bind_ok in H. destruct H as (b & Hb & H). injection H as <-.
  assert (Hqf : exists x, q = NFloat x).
  { unfold num_truediv in Hq. destruct n as [z|x].
    - apply bind_ok in Hq. destruct Hq as (y & _ & Hy). injection Hy as <-. now eexists.
    - apply bind_ok in Hq. destruct Hq as (y & _ & Hy).
      apply bind_ok in Hy. destruct Hy as (y' & _ & Hy).
      destruct (PrimFloat.eqb y' zero); [discriminate Hy|]. injection Hy as <-. now eexists. }
  destruct Hqf as [x ->].
  change (float_binop PrimFloat.sub (NInt 100) (NFloat x) = Ok a) in Ha.
  apply float_binop_float in Ha. destruct Ha as [y ->].
  change (float_binop PrimFloat.sub (NFloat y) (NInt (w * 5)) = Ok b) in Hb.
  apply float_binop_float in Hb. destruct Hb as [y' ->].
  unfold num_max. destruct (num_gt _ _); [right; now eexists | now left].
Qed.

Lemma research_formula_shape (t : value) (s : num) :
  research_formula t = Ok s -> (exists z, s = NInt z /\ 20 <= z <= 80) \/ exists x, s = NFloat x.
Proof.
  unfold research_formula. destruct (as_num t) as [n|]; [|discriminate].
  intros H. apply bind_ok in H. destruct H as (p & Hp & H).
  apply bind_ok in H. destruct H as (d & Hd & H). injection H as <-.
  destruct n as [z|x].
  - unfold num_mul in Hp. assert (Ep : p = NInt (z * 2)) by congruence. subst p.
    unfold num_sub in Hd. assert (Ed : d = NInt (70 - z * 2)) by congruence. subst d.
    left. unfold num_min, num_max. rewrite num_lt_int.
    destruct (70 - z * 2 <? 80) eqn:E1; cbv iota; rewrite num_gt_int.
    + destruct (20 <? 70 - z * 2) eqn:E2; eexists; (split; [reflexivity|]); lia.
    + exists 80. split; [reflexivity | lia].
  - change (float_binop PrimFloat.mul (NFloat x) (NInt 2) = Ok p) in Hp.
    apply float_binop_float in Hp. destruct Hp as [y ->].
    change (float_binop PrimFloat.sub (NInt 70) (NFloat y) = Ok d) in Hd.
    apply float_binop_float in Hd. destruct Hd as [y' ->].
    unfold num_min, num_max.
    destruct (num_lt _ _); cbv iota.
    + destruct (num_gt _ _); [right; now eexists | left; exists 20; split; [reflexivity | lia]].
    + rewrite num_gt_int. left. exists 80. split; [reflexivity | lia].
Qed.

Lemma num_ge_70_50 (s : num) :
  num_ge s (NInt 70) = true -> num_ge s (NInt 50) = true.
Proof.
  unfold num_ge, num_compare. simpl (xreal_of_num (NInt _)).
  destruct (xreal_of_num s) as [|neg|m e]; simpl; [discriminate | now destruct neg |].
  unfold fin_compare.
  set (a := m * 2 ^ (e - Z.min e 0)). set (c := 2 ^ (0 - Z.min e 0)).
  assert (Hc : 0 < c) by (apply Z.pow_pos_nonneg; lia).
  destruct (Z.compare_spec a (70 * c)); try discriminate; intros _;
    destruct (Z.compare_spec a (50 * c)); trivial; lia.
Qed.

Section Scorer.

Variable json_loads : string -> option value.

(** ** The first [try] block *)

Lemma extract_permit_result (pd : value) (l0 l : locals) (s : num) :
  extract_permit pd l0 = (l, Ok s) ->
  exists f w, l = mk_locals (Some f) (Some w) /\ permit_formula f w = Ok s.
Proof.
  unfold extract_permit. intros H.
  do 4 (apply seq_ok in H; destruct H as (? & ? & _ & H)).
  apply seq_ok in H. destruct H as (f & l1 & Hf & H).
  apply seq_ok in H. destruct H as (w & l2 & Hw & H).
  unfold eval in H. assert (E0 : l2 = l /\ permit_formula f w = Ok s) by (split; congruence).
  clear H. destruct E0 as [-> H].
  unfold read in Hf, Hw.
  destruct (fees _) as [f'|] eqn:Ef; [|discriminate Hf].
  assert (E1 : l1 = x6 /\ f' = f) by (split; congruence). destruct E1 as [-> ->].
  destruct (processing_weeks _) as [w'|] eqn:Ew; [|discriminate Hw].
  assert (E2 : l = x6 /\ w' = w) by (split; congruence). destruct E2 as [-> ->].
  exists f, w. split; [|exact H]. destruct x6. simpl in Ef, Ew. now subst.
Qed.

Lemma permit_stage_eq (pd : value) :
  permit_stage json_loads pd =
  match loads_if_str json_loads pd with
  | Ok pd' => let '(l, r) := extract_permit pd' unbound in (l, or_flat_60 r)
  | Raise _ => (unbound, NInt 60)
  end.
Proof.
  unfold permit_stage, permit_try, seq, eval.
  destruct (loads_if_str json_loads pd); reflexivity.
Qed.

Lemma extract_permit_bound (pd : value) (l0 l : locals) (r : result num) :
  extract_permit pd l0 = (l, r) -> bound l.
Proof.
  unfold extract_permit. unfold seq at 1. unfold assign_fees at 1.
  unfold seq at 1. unfold assign_processing_weeks at 1. cbv beta iota.
  simpl processing_weeks. simpl fees.
  intros H. revert H. revert l r.
  match goal with
  | |- forall l r, ?s ?l1 = (l, r) -> bound l =>
      assert (Hs : keeps_bound s) by keeps_bound;
      intros l r H; apply (Hs l1 l r H)
  end.
  now exists (VInt 500), 4.
Qed.

(** The first [try]/[except] leaves the locals assigned, unless the input is
    a string that does not parse. *)
Lemma permit_stage_bound (pd : value) :
  is_ok (loads_if_str json_loads pd) = true -> bound (fst (permit_stage json_loads pd)).
Proof.
  rewrite permit_stage_eq.
  destruct (loads_if_str json_loads pd) as [pd'|e]; [|discriminate]. intros _.
  destruct (extract_permit pd' unbound) as [l r] eqn:E. simpl.
  exact (extract_permit_bound _ _ _ _ E).
Qed.

(** A string that does not parse leaves them unbound, and the score at 60. *)
Lemma permit_stage_unparsed (s : string) :
  json_loads s = None ->
  permit_stage json_loads (VStr s) = (unbound, NInt 60).
Proof.
  intros H. rewrite permit_stage_eq. unfold loads_if_str. now rewrite H.
Qed.

Lemma permit_stage_shape (pd : value) :
  let p := snd (permit_stage json_loads pd) in
  p = NInt 0 \/ p = NInt 60 \/ exists x, p = NFloat x.
Proof.
  cbv zeta. rewrite permit_stage_eq.
  destruct (loads_if_str json_loads pd) as [pd'|e]; [|simpl; right; now left].
  destruct (extract_permit pd' unbound) as [l [s|e]] eqn:E; simpl; [|right; now left].
  apply extract_permit_result in E. destruct E as (f & w & _ & E).
  apply permit_formula_shape in E. tauto.
Qed.

Lemma research_stage_shape (rd : value) :
  let r := research_stage json_loads rd in
  (exists z, r = NInt z /\ 20 <= z <= 80) \/ exists x, r = NFloat x.
Proof.
  cbv zeta. unfold research_stage, research_try.
  destruct (loads_if_str json_loads rd) as [rd'|e]; simpl;
    [|left; exists 60; split; [reflexivity | lia]].
  destruct (py_get rd' "total_articles" (VInt 0)) as [t|e]; simpl;
    [|left; exists 60; split; [reflexivity | lia]].
  destruct (research_formula t) as [s|e] eqn:E; simpl;
    [|left; exists 60; split; [reflexivity | lia]].
  now apply research_formula_shape in E.
Qed.

(** Line 353 never raises on the two scores. *)
Lemma overall_total (pd rd : value) :
  exists s, overall (snd (permit_stage json_loads pd)) (research_stage json_loads rd)
            = Ok (NFloat s).
Proof.
  unfold overall.
  assert (Hp : exists a, num_mul (snd (permit_stage json_loads pd)) (NFloat f0_6) = Ok (NFloat a)).
  { destruct (permit_stage_shape pd) as [->|[->|[x ->]]].
    - destruct (float_binop_small PrimFloat.mul 0 f0_6) as [x Hx]; [lia|]. eexists. exact Hx.
    - destruct (float_binop_small PrimFloat.mul 60 f0_6) as [x Hx]; [lia|]. eexists. exact Hx.
    - now eexists. }
  assert (Hr : exists b, num_mul (research_stage json_loads rd) (NFloat f0_4) = Ok (NFloat b)).
  { destruct (research_stage_shape rd) as [(z & -> & Hz)|[x ->]].
    - destruct (float_binop_small PrimFloat.mul z f0_4) as [x Hx]; [lia|]. eexists. exact Hx.
    - now eexists. }
  destruct Hp as [a ->]. destruct Hr as [b ->]. now eexists.
Qed.

(** Lines 353-373 return on every input that reaches them with the locals
    assigned. *)
Lemma calculate_returns (pd rd : value) :
  is_ok (loads_if_str json_loads pd) = true ->
  exists s f w,
    overall (snd (permit_stage json_loads pd)) (research_stage json_loads rd) = Ok (NFloat s) /\
    fst (permit_stage json_loads pd) = mk_locals (Some f) (Some w) /\
    calculate_feasibility_score json_loads pd rd
    = Ok (VDict [ ("overall_score", VFloat (round1_float s));
                  ("decision", VStr (fst (decide_risk (NFloat s))));
                  ("risk_level", VStr (snd (decide_risk (NFloat s))));
                  ("permit_score", value_of_num (round1 (snd (permit_stage json_loads pd))));
                  ("research_score", value_of_num (round1 (research_stage json_loads rd)));
                  ("fees", f);
                  ("processing_weeks", VInt w) ]).
Proof.
  intros Hpd. destruct (overall_total pd rd) as [s Hs].
  destruct (permit_stage_bound pd Hpd) as (f & w & Hl).
  exists s, f, w. split; [exact Hs | split; [exact Hl|]].
  unfold calculate_feasibility_score.
  destruct (permit_stage json_loads pd) as [l p]. simpl in Hs, Hl. subst l.
  unfold report. rewrite Hs. simpl. now destruct (decide_risk (NFloat s)).
Qed.

(** The fields of a permit form that is a JSON object with a string for
    [processing_time]. *)
Lemma extract_permit_form (d pf : dict) (fees : value) (time : string) (l0 : locals) :
  dict_get d "permit_form" = Some (VDict pf) ->
  py_get (VDict pf) "fees" (VInt 500) = Ok fees ->
  py_get (VDict pf) "processing_time" (VStr "4 weeks") = Ok (VStr time) ->
  extract_permit (VDict d) l0 =
  if contains "week" time then
    match int_of_str (split_head "-" time) with
    | Ok w => (mk_locals (Some fees) (Some w), permit_formula fees w)
    | Raise e => (mk_locals (Some fees) (Some 4), Raise e)
    end
  else (mk_locals (Some fees) (Some 4), permit_formula fees 4).
Proof.
  intros Hpf Hfees Htime.
  unfold extract_permit, seq, eval, assign_fees, assign_processing_weeks, read, ret,
    py_in, py_getitem, dict_has.
  rewrite Hpf, Hfees, Htime.
  cbn [py_split_head Feasibility.fees Feasibility.processing_weeks].
  destruct (contains "week" time); [|reflexivity].
  destruct (int_of_str (split_head "-" time)); reflexivity.
Qed.

Lemma extract_permit_no_form (d : dict) (l0 : locals) :
  dict_get d "permit_form" = None ->
  extract_permit (VDict d) l0
  = (mk_locals (Some (VInt 500)) (Some 4), permit_formula (VInt 500) 4).
Proof.
  intros Hpf.
  unfold extract_permit, seq, eval, assign_fees, assign_processing_weeks, read, ret,
    py_in, dict_has.
  now rewrite Hpf.
Qed.

(** C1 (as amended): whenever the input reaches the report with its locals
    assigned, the report holds the weighted sum of the two scores rounded to
    one decimal; the decision and the risk level are read off the sum
    itself, before it is rounded: GO and Low from 70 up, CONDITIONAL GO and
    Medium from 50 up, NO-GO and High below; so they are at the sums 70.0,
    69.9, 50.0 and 49.9, and at the scores 30 and 70. *)
Theorem overall_score_and_decision :
  (forall pd rd,
     is_ok (loads_if_str json_loads pd) = true ->
     exists s f w,
       overall (snd (permit_stage json_loads pd)) (research_stage json_loads rd)
       = Ok (NFloat s) /\
       fst (permit_stage json_loads pd) = mk_locals (Some f) (Some w) /\
       calculate_feasibility_score json_loads pd rd
       = Ok (VDict [ ("overall_score", VFloat (round1_float s));
                     ("decision", VStr (fst (decide_risk (NFloat s))));
                     ("risk_level", VStr (snd (decide_risk (NFloat s))));
                     ("permit_score",
                      value_of_num (round1 (snd (permit_stage json_loads pd))));
                     ("research_score",
                      value_of_num (round1 (research_stage json_loads rd)));
                     ("fees", f);
                     ("processing_weeks", VInt w) ])) /\
  (forall s,
     (num_ge s (NInt 70) = true -> decide_risk s = ("GO", "Low")) /\
     (num_ge s (NInt 70) = false -> num_ge s (NInt 50) = true ->
      decide_risk s = ("CONDITIONAL GO", "Medium")) /\
     (num_ge s (NInt 50) = false -> decide_risk s = ("NO-GO", "High"))) /\
  decide_risk (NFloat 70) = ("GO", "Low") /\
  decide_risk (NFloat f69_9) = ("CONDITIONAL GO", "Medium") /\
  decide_risk (NFloat 50) = ("CONDITIONAL GO", "Medium") /\
  decide_risk (NFloat f49_9) = ("NO-GO", "High") /\
  overall (NFloat 30) (NInt 70) = Ok (NFloat 46) /\
  round1_float 46 = 46%float /\
  decide_risk (NFloat 46) = ("NO-GO", "High").
Proof.
  split; [exact calculate_returns|].
  split; [|repeat split; vm_compute; reflexivity].
  intros s. unfold decide_risk. repeat split.
  - now intros ->.
  - now intros -> ->.
  - intros H50. destruct (num_ge s (NInt 70)) eqn:H70.
    + apply num_ge_70_50 in H70. congruence.
    + now rewrite H50.
Qed.

(** ** The permit formula, step by step *)









(** C3: the research score is [max(20, min(80, 70 - total_articles*2))],
    with 0 for a missing [total_articles]; 0 articles give 70 and 30 give 20;
    the score always lies in [20, 80]; an exception gives 60. *)
Theorem research_score_formula :
  (forall rd d total,
     loads_if_str json_loads rd = Ok (VDict d) ->
     py_get (VDict d) "total_articles" (VInt 0) = Ok total ->
     (forall t, as_num total = Some (NInt t) ->
        research_stage json_loads rd = NInt (Z.max 20 (Z.min 80 (70 - t * 2)))) /\
     (forall t, as_num total = Some t ->
        exists p diff,
          num_mul t (NInt 2) = Ok p /\ num_sub (NInt 70) p = Ok diff /\
          research_stage json_loads rd = num_max (NInt 20) (num_min (NInt 80) diff))) /\
  research_stage json_loads (VDict [("total_articles", VInt 0)]) = NInt 70 /\
  research_stage json_loads (VDict []) = NInt 70 /\
  research_stage json_loads (VDict [("total_articles", VInt 30)]) = NInt 20 /\
  (forall rd,
     num_le (NInt 20) (research_stage json_loads rd) = true /\
     num_le (research_stage json_loads rd) (NInt 80) = true) /\
  (forall rd e,
     research_try json_loads rd = Raise e -> research_stage json_loads rd = NInt 60).
Proof.
  split; [|split; [reflexivity | split; [reflexivity | split; [reflexivity | split]]]].
  - intros rd d total Hrd Htotal.
    assert (Hstage : research_stage json_loads rd = or_flat_60 (research_formula total)).
    { unfold research_stage, research_try. rewrite Hrd. cbn [bind]. now rewrite Htotal. }
    rewrite Hstage. unfold research_formula. split.
    + intros t ->. unfold num_mul, num_sub, bind, or_flat_60, num_min, num_max.
      rewrite num_lt_int.
      destruct (70 - t * 2 <? 80) eqn:E1; cbv iota; rewrite num_gt_int.
      * destruct (20 <? 70 - t * 2) eqn:E2; f_equal; lia.
      * change (20 <? 80) with true. cbv iota. f_equal. lia.
    + intros t ->. destruct t as [z|x].
      * eexists. eexists. repeat split.
      * assert (H2 : num_mul (NFloat x) (NInt 2) = Ok (NFloat (x * 2)))
          by (vm_compute; reflexivity).
        assert (H70 : forall y, num_sub (NInt 70) (NFloat y) = Ok (NFloat (70 - y)))
          by (intros y; vm_compute; reflexivity).
        exists (NFloat (x * 2)), (NFloat (70 - x * 2)).
        split; [exact H2 | split; [apply H70|]].
        rewrite H2. cbn [bind]. rewrite H70. reflexivity.
  - intros rd. destruct (research_stage_shape rd) as [(z & -> & Hz)|[x Hx]].
    + rewrite !num_le_int. split; apply Z.leb_le; lia.
    + unfold research_stage, research_try in *.
      destruct (loads_if_str json_loads rd) as [rd'|e]; [|discriminate Hx].
      cbn [bind] in *.
      destruct (py_get rd' "total_articles" (VInt 0)) as [total|e]; [|discriminate Hx].
      cbn [bind] in *. unfold research_formula in *.
      destruct (as_num total) as [t|]; [|discriminate Hx].
      destruct (num_mul t (NInt 2)) as [p|e]; [|discriminate Hx]. cbn [bind] in *.
      destruct (num_sub (NInt 70) p) as [diff|e]; [|discriminate Hx].
      cbn [bind or_flat_60] in *. clear Hx x.
      unfold num_max, num_min.
      destruct (num_lt diff (NInt 80)) eqn:E80; cbv iota.
      * destruct (num_gt diff (NInt 20)) eqn:E20.
        -- split; [|now apply num_lt_le]. apply num_lt_le. now rewrite <- num_gt_lt.
        -- split; reflexivity.
      * split; reflexivity.
  - intros rd e H. unfold research_stage. now rewrite H.
Qed.

(** C4 (as amended): with a permit form, [fees] is the form's or 500 and
    the processing time the form's or the text 4 weeks; when the
    processing time contains the word week, [processing_weeks] is the integer
    that the text before its first hyphen reads as, and stays 4, with a flat
    score of 60, when that text is no integer; when it does not contain the
    word, [processing_weeks] stays 4 whatever the text starts with.  Any
    exception in the block gives the flat score 60 in place of the
    formula. *)
Theorem permit_extraction :
  (forall pd d pf time,
     loads_if_str json_loads pd = Ok (VDict d) ->
     dict_get d "permit_form" = Some (VDict pf) ->
     dict_get_or pf "processing_time" (VStr "4 weeks") = VStr time ->
     let fees := dict_get_or pf "fees" (VInt 500) in
     permit_stage json_loads pd =
     if contains "week" time then
       match int_of_str (split_head "-" time) with
       | Ok w => (mk_locals (Some fees) (Some w), or_flat_60 (permit_formula fees w))
       | Raise _ => (mk_locals (Some fees) (Some 4), NInt 60)
       end
     else (mk_locals (Some fees) (Some 4), or_flat_60 (permit_formula fees 4))) /\
  (forall pd d,
     loads_if_str json_loads pd = Ok (VDict d) ->
     dict_get d "permit_form" = None ->
     permit_stage json_loads pd
     = (mk_locals (Some (VInt 500)) (Some 4), or_flat_60 (permit_formula (VInt 500) 4))) /\
  (forall pd l e,
     permit_try json_loads pd unbound = (l, Raise e) ->
     permit_stage json_loads pd = (l, NInt 60)) /\
  (forall pd pd' l e rd,
     loads_if_str json_loads pd = Ok pd' ->
     extract_permit pd' unbound = (l, Raise e) ->
     exists report,
       calculate_feasibility_score json_loads pd rd = Ok (VDict report) /\
       dict_get report "permit_score" = Some (VInt 60)).
Proof.
  split; [|split; [|split]].
  - intros pd d pf time Hpd Hpf Htime fees.
    rewrite permit_stage_eq, Hpd.
    rewrite (extract_permit_form d pf fees time unbound Hpf).
    + destruct (contains "week" time); [|reflexivity].
      destruct (int_of_str (split_head "-" time)); reflexivity.
    + apply py_get_dict.
    + now rewrite py_get_dict, Htime.
  - intros pd d Hpd Hpf. rewrite permit_stage_eq, Hpd.
    now rewrite (extract_permit_no_form d unbound Hpf).
  - intros pd l e H. unfold permit_stage. now rewrite H.
  - intros pd pd' l e rd Hpd Hex.
    assert (Hok : is_ok (loads_if_str json_loads pd) = true) by now rewrite Hpd.
    destruct (calculate_returns pd rd Hok) as (s & f & w & _ & _ & Hrun).
    eexists. split; [exact Hrun|].
    rewrite permit_stage_eq, Hpd, Hex. reflexivity.
Qed.

(** X1: a permitting result that is a text [json.loads] rejects leaves
    [fees] unbound: line 371 of the [return] statement raises. *)
Theorem unparsed_permitting_text_raises (s : string) (rd : value) :
  json_loads s = None ->
  permit_stage json_loads (VStr s) = (unbound, NInt 60) /\
  calculate_feasibility_score json_loads (VStr s) rd = Raise UnboundLocalError.
Proof.
  intros H. split; [now apply permit_stage_unparsed|].
  destruct (overall_total (VStr s) rd) as [x Hx].
  unfold calculate_feasibility_score.
  rewrite (permit_stage_unparsed s H) in *. simpl in Hx.
  unfold report. rewrite Hx. simpl.
  now destruct (decide_risk (NFloat x)).
Qed.

End Scorer.

(** ** The scorer on sample inputs *)

Definition no_json : string -> option value := fun _ => None.

Definition permit_of (fees : value) (processing_time : string) : value :=
  VDict [ ("permit_form",
           VDict [ ("fees", fees); ("processing_time", VStr processing_time) ]) ].

Definition research_of (total_articles : Z) : value :=
  VDict [ ("total_articles", VInt total_articles) ].

Lemma overall_score_and_decision_witness :
  calculate_feasibility_score no_json (permit_of (VInt 500) "4-6 weeks") (research_of 0)
  = Ok (VDict [ ("overall_score", VFloat 46);
                ("decision", VStr "NO-GO");
                ("risk_level", VStr "High");
                ("permit_score", VFloat 30);
                ("research_score", VInt 70);
                ("fees", VInt 500);
                ("processing_weeks", VInt 4) ]).
Proof.
  destruct (overall_score_and_decision no_json) as [Hrun _].
  destruct (Hrun (permit_of (VInt 500) "4-6 weeks") (research_of 0) eq_refl)
    as (s & f & w & Hs & Hl & ->).
  injection Hs as <-. injection Hl as <- <-. reflexivity.
Defined.

(** A weighted sum of 69.96 is reported as 70.0, with the decision of a sum
    below 70. *)
Lemma rounded_70_is_conditional :
  overall (snd (permit_stage no_json (permit_of (VInt 34) "4-6 weeks")))
          (research_stage no_json (research_of 5))
  = Ok (NFloat f69_96) /\
  calculate_feasibility_score no_json (permit_of (VInt 34) "4-6 weeks") (research_of 5)
  = Ok (VDict [ ("overall_score", VFloat 70);
                ("decision", VStr "CONDITIONAL GO");
                ("risk_level", VStr "Medium");
                ("permit_score", VFloat 0x1.3266666666666p+6);
                ("research_score", VInt 60);
                ("fees", VInt 34);
                ("processing_weeks", VInt 4) ]).
Proof. split; vm_compute; reflexivity. Qed.




Lemma research_score_formula_witness :
  research_stage no_json (research_of 12) = NInt 46.
Proof.
  destruct (research_score_formula no_json) as [H _].
  destruct (H (research_of 12) [("total_articles", VInt 12)] (VInt 12) eq_refl eq_refl)
    as [Hint _].
  exact (Hint 12 eq_refl).
Defined.

Lemma permit_extraction_witness :
  permit_stage no_json (permit_of (VInt 750) "3-4 weeks")
  = (mk_locals (Some (VInt 750)) (Some 3), NFloat 10).
Proof.
  destruct (permit_extraction no_json) as [H _].
  exact (H (permit_of (VInt 750) "3-4 weeks")
           [ ("permit_form",
              VDict [ ("fees", VInt 750); ("processing_time", VStr "3-4 weeks") ]) ]
           [ ("fees", VInt 750); ("processing_time", VStr "3-4 weeks") ]
           "3-4 weeks" eq_refl eq_refl eq_refl).
Defined.

(** A processing time in days starts with the integer 10, and leaves
    [processing_weeks] at 4. *)
Lemma days_leave_four_weeks :
  int_of_str (split_head "-" "10-12 days") = Ok 10 /\
  permit_stage no_json (permit_of (VInt 500) "10-12 days")
  = (mk_locals (Some (VInt 500)) (Some 4), NFloat 30).
Proof. split; vm_compute; reflexivity. Qed.

Lemma unparsed_permitting_text_raises_witness :
  calculate_feasibility_score no_json (VStr "The permit package is ready.") (research_of 3)
  = Raise UnboundLocalError.
Proof.
  exact (proj2 (unparsed_permitting_text_raises no_json
                  "The permit package is ready." (research_of 3) eq_refl)).
Defined.

(** ** The order of the two token tests *)

Lemma los_angeles_token (address : string) :
  occurs_in "los angeles" (lower address) \/ occurs_in "la" (lower address) ->
  classify address = "los_angeles" /\
  extract_location_from_address address = "Los Angeles California".
Proof.
  unfold occurs_in. rewrite <- !contains_spec.
  unfold classify, extract_location_from_address.
  intros [H|H]; rewrite H; [|rewrite orb_true_r]; split; reflexivity.
Qed.

(** C10: an address whose lower-casing holds a Los Angeles token and a San
    Francisco token is classified as los_angeles and located in Los Angeles
    California: the Los Angeles test comes first in both functions. *)
Theorem los_angeles_tested_first (json_dumps : value -> string) (address : string) :
  occurs_in "los angeles" (lower address) \/ occurs_in "la" (lower address) ->
  occurs_in "san francisco" (lower address) \/ occurs_in "sf" (lower address) ->
  classify_jurisdiction_tool json_dumps address
  = Ok (json_dumps (classification_payload address "los_angeles"
                      (nth 0 (map snd JURISDICTION_RULES) VNone))) /\
  extract_location_from_address address = "Los Angeles California".
Proof.
  intros Hla _. destruct (los_angeles_token address Hla) as [Hc He].
  split; [|exact He]. unfold classify_jurisdiction_tool. now rewrite Hc.
Qed.

Lemma los_angeles_tested_first_witness :
  classify "12 Lake St, San Francisco" = "los_angeles" /\
  extract_location_from_address "12 Lake St, San Francisco" = "Los Angeles California".
Proof.
  destruct (los_angeles_tested_first (fun _ => "{}") "12 Lake St, San Francisco")
    as [_ He].
  - right. exists "12 ", "ke st, san francisco". reflexivity.
  - left. exists "12 lake st, ", "". reflexivity.
  - split; [reflexivity | exact He].
Defined.

End FeasibilityFacts.

(* ====================================================================== *)
(** * More on the classifier and the permit form *)
(* ====================================================================== *)

Module FormFacts.

Import Permitting Feasibility Orchestration PyFacts PermittingFacts.
Local Open Scope list_scope.

(** ** Letter case *)

Lemma lower_char_twice (c : ascii) : lower_char (lower_char c) = lower_char c.
Proof. destruct c as [[] [] [] [] [] [] [] []]; reflexivity. Qed.

Lemma lower_twice (s : string) : lower (lower s) = lower s.
Proof.
  induction s as [|c s IH]; simpl; [reflexivity|].
  now rewrite lower_char_twice, IH.
Qed.

(** X2: the location handed to the research crew follows the jurisdiction
    the classifier returns, on every address: the two functions never
    disagree. *)
Theorem location_follows_jurisdiction (address : string) :
  (classify address = "los_angeles"
   <-> extract_location_from_address address = "Los Angeles California") /\
  (classify address = "san_francisco"
   <-> extract_location_from_address address = "San Francisco California") /\
  (classify address = "california_default"
   <-> extract_location_from_address address = "California").
Proof.
  unfold classify, extract_location_from_address.
  destruct (contains "los angeles" (lower address) || contains "la" (lower address));
    [repeat split; intros H; (reflexivity || discriminate H)|].
  destruct (contains "san francisco" (lower address) || contains "sf" (lower address));
    repeat split; intros H; (reflexivity || discriminate H).
Qed.

(** X3: the classification and the location depend on the address only
    through its lower-casing: two addresses that differ in letter case only
    are classified alike, and an address as its lower-casing. *)
Theorem classification_ignores_case (a b : string) :
  lower a = lower b ->
  classify a = classify b /\
  extract_location_from_address a = extract_location_from_address b /\
  classify (lower a) = classify a /\
  extract_location_from_address (lower a) = extract_location_from_address a.
Proof.
  intros H. unfold classify, extract_location_from_address.
  rewrite lower_twice, H. repeat split.
Qed.

Lemma classification_ignores_case_witness :
  classify "1 MARKET ST, SAN FRANCISCO" = classify "1 Market St, San Francisco".
Proof.
  exact (proj1 (classification_ignores_case
                  "1 MARKET ST, SAN FRANCISCO" "1 Market St, San Francisco" eq_refl)).
Defined.

(** ** The rules of a classified address *)

(** The rule record of the jurisdiction of an address, with its six
    fields. *)
Lemma classified_rules (address : string) :
  exists rules name permit_type requirements fees time contact,
    dict_get JURISDICTION_RULES (classify address) = Some (VDict rules) /\
    dict_get rules "jurisdiction_name" = Some name /\
    dict_get rules "permit_type" = Some permit_type /\
    dict_get rules "requirements" = Some requirements /\
    dict_get rules "fees" = Some (VInt fees) /\
    dict_get rules "processing_time" = Some (VStr time) /\
    dict_get rules "contact" = Some contact /\
    ((classify address = "los_angeles" /\ fees = 500 /\ time = "4-6 weeks") \/
     (classify address = "san_francisco" /\ fees = 750 /\ time = "3-4 weeks") \/
     (classify address = "california_default" /\ fees = 300 /\ time = "2-4 weeks")).
Proof.
  destruct (classify_cases address) as [[_ E]|[(_ & _ & E)|(_ & _ & E)]]; rewrite E;
    do 7 eexists; repeat split; try reflexivity; tauto.
Qed.

Section Tools.

Variable json_dumps : value -> string.
Variable json_loads : string -> result value.
Variable py_str : value -> string.

(** The tool on jurisdiction data that hold the rules: the form it hands to
    [json.dumps], key by key. *)
Lemma generate_on_rules
      (address jurisdiction_data system_details : string) (info rules details : dict)
      (name permit_type requirements fees time contact : value) :
  json_loads (unfence jurisdiction_data) = Ok (VDict info) ->
  dict_get info "jurisdiction_info" = Some (VDict rules) ->
  dict_get rules "jurisdiction_name" = Some name ->
  dict_get rules "permit_type" = Some permit_type ->
  dict_get rules "requirements" = Some requirements ->
  dict_get rules "fees" = Some fees ->
  dict_get rules "processing_time" = Some time ->
  dict_get rules "contact" = Some contact ->
  parsed_details json_loads system_details = Some details ->
  NoDup (dict_keys details) ->
  exists permit_form,
    generate_permit_form_tool json_dumps json_loads py_str
      address jurisdiction_data system_details
    = Ok (json_dumps (permit_payload py_str permit_form contact fees time)) /\
    dict_keys permit_form = dict_keys PERMIT_TEMPLATE /\
    forall k,
      dict_get permit_form k =
      if dict_has PERMIT_TEMPLATE k then
        match dict_get details k with
        | Some v => Some v
        | None => dict_get (filled_form address name permit_type requirements fees time) k
        end
      else None.
Proof.
  intros Hinfo Hrules H1 H2 H3 H4 H5 H6 Hdetails Hnd.
  set (form := filled_form address name permit_type requirements fees time).
  assert (Hform : exists permit_form,
             (if negb (String.eqb system_details "")
              then (details <- _extract_json_from_text json_loads system_details ;;
                    merge_details form details)%py
              else Ok form) = Ok permit_form /\
             dict_keys permit_form = dict_keys form /\
             forall k, dict_get permit_form k =
                       match dict_get details k with
                       | Some v => if dict_has form k then Some v else dict_get form k
                       | None => dict_get form k
                       end).
  { unfold parsed_details in Hdetails.
    destruct (String.eqb system_details ""); simpl.
    - injection Hdetails as <-. exists form. repeat split.
    - destruct (_extract_json_from_text json_loads system_details) as [[| | | | | |d]|e];
        try discriminate Hdetails.
      injection Hdetails as ->. cbn [bind]. now apply merge_details_filled. }
  destruct Hform as (permit_form & Hrun & Hkeys & Hget).
  exists permit_form. split; [|split; [exact Hkeys|]].
  - unfold generate_permit_form_tool.
    rewrite (extract_parsed json_loads _ _ Hinfo). cbn [bind].
    assert (Htruthy : truthy (VDict info) = true)
      by (destruct info; [discriminate Hrules | reflexivity]).
    rewrite Htruthy. simpl. unfold dict_has. rewrite Hrules. simpl.
    rewrite (fill_form_filled address rules name permit_type requirements fees time)
      by assumption.
    cbn [bind]. fold form. rewrite Hrun. simpl.
    now rewrite H6, H4, H5.
  - intros k. rewrite Hget.
    assert (Hsame : dict_has form k = dict_has PERMIT_TEMPLATE k).
    { destruct (dict_has PERMIT_TEMPLATE k) eqn:E.
      - apply dict_has_true. now apply dict_has_true in E.
      - destruct (dict_has form k) eqn:E'; [|reflexivity].
        apply dict_has_true in E'. change (dict_keys form) with (dict_keys PERMIT_TEMPLATE) in E'.
        apply dict_has_true in E'. congruence. }
    rewrite Hsame. destruct (dict_has PERMIT_TEMPLATE k) eqn:E.
    + reflexivity.
    + assert (Hnone : dict_get form k = None).
      { apply dict_get_absent. intros Hin. apply dict_has_true in Hin.
        rewrite Hsame in Hin. discriminate Hin. }
      rewrite Hnone. now destruct (dict_get details k).
Qed.

(** X4: what the classifier returns for an address is valid jurisdiction
    data for the form generator: the generator reports no error and raises
    nothing, the next steps and the contact are those of the address's
    jurisdiction, and the form holds the address, the rules of that
    jurisdiction and the date, under the system details whose keys the
    template has. *)
Theorem classifier_output_fills_form
        (address system_details : string) (details : dict) :
  let payload :=
    classification_payload address (classify address)
      (dict_get_or JURISDICTION_RULES (classify address) VNone) in
  json_loads (unfence (json_dumps payload)) = Ok payload ->
  parsed_details json_loads system_details = Some details ->
  NoDup (dict_keys details) ->
  exists jurisdiction_data rules name permit_type requirements fees time contact permit_form,
    classify_jurisdiction_tool json_dumps address = Ok jurisdiction_data /\
    dict_get JURISDICTION_RULES (classify address) = Some (VDict rules) /\
    rules = [ ("jurisdiction_name", name); ("permit_type", permit_type);
              ("requirements", requirements); ("fees", fees);
              ("processing_time", time); ("contact", contact) ] /\
    generate_permit_form_tool json_dumps json_loads py_str
      address jurisdiction_data system_details
    = Ok (json_dumps (permit_payload py_str permit_form contact fees time)) /\
    dict_keys permit_form = dict_keys PERMIT_TEMPLATE /\
    forall k,
      dict_get permit_form k =
      if dict_has PERMIT_TEMPLATE k then
        match dict_get details k with
        | Some v => Some v
        | None => dict_get (filled_form address name permit_type requirements fees time) k
        end
      else None.
Proof.
  intros payload Hloads Hdetails Hnd.
  assert (Hrules : exists rules name permit_type requirements fees time contact,
             dict_get JURISDICTION_RULES (classify address) = Some (VDict rules) /\
             rules = [ ("jurisdiction_name", name); ("permit_type", permit_type);
                       ("requirements", requirements); ("fees", fees);
                       ("processing_time", time); ("contact", contact) ]).
  { destruct (classify_cases address) as [[_ E]|[(_ & _ & E)|(_ & _ & E)]]; rewrite E;
      do 7 eexists; split; reflexivity. }
  destruct Hrules as (rules & name & permit_type & requirements & fees & time & contact
                      & Hget & Hshape).
  assert (Hpayload : payload
                     = classification_payload address (classify address) (VDict rules)).
  { unfold payload, dict_get_or. now rewrite Hget. }
  assert (Htool : classify_jurisdiction_tool json_dumps address = Ok (json_dumps payload)).
  { unfold classify_jurisdiction_tool, py_getitem. rewrite Hget, Hpayload. reflexivity. }
  destruct (generate_on_rules
              address (json_dumps payload) system_details
              [ ("address", VStr address);
                ("classified_jurisdiction", VStr (classify address));
                ("jurisdiction_info", VDict rules) ]
              rules details name permit_type requirements fees time contact)
    as (permit_form & Hrun & Hkeys & Hform); trivial;
    try (rewrite Hshape; reflexivity).
  - rewrite Hloads, Hpayload. reflexivity.
  - exists (json_dumps payload), rules, name, permit_type, requirements, fees, time, contact,
      permit_form.
    repeat split; trivial.
Qed.

(** X5: the system details that [create_permitting_task] writes are all
    kept by the form generator: with valid jurisdiction data the form is the
    template with the address, the rules, the date, the system size, the
    panel count, the cost "$0" and the inverter "Unknown", the name, the
    company and the licence left empty. *)
Theorem task_details_fill_form
        (address jurisdiction_data system_size panel_count : string) (info rules : dict)
        (name permit_type requirements fees time contact : value) :
  json_loads (unfence jurisdiction_data) = Ok (VDict info) ->
  dict_get info "jurisdiction_info" = Some (VDict rules) ->
  dict_get rules "jurisdiction_name" = Some name ->
  dict_get rules "permit_type" = Some permit_type ->
  dict_get rules "requirements" = Some requirements ->
  dict_get rules "fees" = Some fees ->
  dict_get rules "processing_time" = Some time ->
  dict_get rules "contact" = Some contact ->
  let system_details := json_dumps (system_details_of system_size panel_count) in
  system_details <> "" ->
  json_loads (unfence system_details) = Ok (system_details_of system_size panel_count) ->
  generate_permit_form_tool json_dumps json_loads py_str
    address jurisdiction_data system_details
  = Ok (json_dumps
          (permit_payload py_str
             [ ("applicant_name", VStr "");
               ("property_address", VStr address);
               ("jurisdiction", name);
               ("permit_type", permit_type);
               ("system_size_kw", VStr system_size);
               ("panel_count", VStr panel_count);
               ("inverter_type", VStr "Unknown");
               ("installation_company", VStr "");
               ("contractor_license", VStr "");
               ("estimated_cost", VStr "$0");
               ("requirements_checklist", requirements);
               ("fees", fees);
               ("processing_time", time);
               ("submission_date", VStr "2024-07-18");
               ("status", VStr "Draft") ]
             contact fees time)).
Proof.
  intros Hinfo Hrules H1 H2 H3 H4 H5 H6 system_details Hne Hloads.
  unfold generate_permit_form_tool.
  rewrite (extract_parsed json_loads _ _ Hinfo). cbn [bind].
  assert (Htruthy : truthy (VDict info) = true)
    by (destruct info; [discriminate Hrules | reflexivity]).
  rewrite Htruthy. simpl. unfold dict_has. rewrite Hrules. simpl.
  rewrite (fill_form_filled address rules name permit_type requirements fees time)
    by assumption.
  cbn [bind]. apply String.eqb_neq in Hne. fold system_details. rewrite Hne.
  rewrite (extract_parsed json_loads _ _ Hloads). simpl.
  now rewrite H6, H4, H5.
Qed.

(** X6: jurisdiction data that parse to a JSON value that is no object give
    the error text of line 204 when the value is false (null, false, 0, the
    empty text or list) and when it is a text or a list that does not hold
    [jurisdiction_info]. Every other such value makes the tool raise a
    [TypeError]: a true boolean or a number other than 0 within the test of
    line 203, where [in] is applied to it; a text or a list that holds
    [jurisdiction_info] passes that test and fails at the subscript of
    line 206. *)
Theorem non_object_jurisdiction_data
        (address jurisdiction_data system_details : string) (v : value) :
  json_loads (unfence jurisdiction_data) = Ok v ->
  (forall d, v <> VDict d) ->
  generate_permit_form_tool json_dumps json_loads py_str
    address jurisdiction_data system_details
  = match v with
    | VStr s =>
        if contains "jurisdiction_info" s then Raise TypeError
        else Ok invalid_jurisdiction_data
    | VList l =>
        if existsb (fun x => is_str x "jurisdiction_info") l then Raise TypeError
        else Ok invalid_jurisdiction_data
    | _ => if truthy v then Raise TypeError else Ok invalid_jurisdiction_data
    end.
Proof.
  intros Hloads Hobj.
  unfold generate_permit_form_tool.
  rewrite (extract_parsed json_loads _ _ Hloads). cbn [bind].
  destruct v as [|b|z|f|s|l|d]; cbn [py_in bind negb].
  - reflexivity.
  - destruct b; reflexivity.
  - cbn [truthy]. destruct (z =? 0); reflexivity.
  - cbn [truthy]. destruct (Prim2SF f); reflexivity.
  - cbn [truthy]. destruct (String.eqb s "") eqn:E; cbn [negb].
    + apply String.eqb_eq in E. subst s. reflexivity.
    + destruct (contains "jurisdiction_info" s); reflexivity.
  - destruct l as [|x l]; [reflexivity|]. cbn [truthy negb].
    destruct (existsb (fun x0 => is_str x0 "jurisdiction_info") (x :: l)); reflexivity.
  - contradiction (Hobj d). reflexivity.
Qed.

(** X7: jurisdiction data whose [jurisdiction_info] is no object raise a
    [TypeError], and those whose [jurisdiction_info] is an object that lacks
    the name, the permit type, the requirements, the fees or the processing
    time raise a [KeyError]: the error text is not returned for them. *)
Theorem incomplete_rules_raise
        (address jurisdiction_data system_details : string) (info : dict) (rules : value) :
  json_loads (unfence jurisdiction_data) = Ok (VDict info) ->
  dict_get info "jurisdiction_info" = Some rules ->
  ((forall r, rules <> VDict r) ->
   generate_permit_form_tool json_dumps json_loads py_str
     address jurisdiction_data system_details = Raise TypeError) /\
  (forall r k,
     rules = VDict r ->
     In k [ "jurisdiction_name"; "permit_type"; "requirements"; "fees"; "processing_time" ] ->
     dict_get r k = None ->
     generate_permit_form_tool json_dumps json_loads py_str
       address jurisdiction_data system_details = Raise KeyError).
Proof.
  intros Hinfo Hrules.
  assert (Htruthy : truthy (VDict info) = true)
    by (destruct info; [discriminate Hrules | reflexivity]).
  assert (Hrun : generate_permit_form_tool json_dumps json_loads py_str
                   address jurisdiction_data system_details
                 = bind (fill_form address rules) (fun permit_form =>
                   bind (if negb (String.eqb system_details "")
                         then bind (_extract_json_from_text json_loads system_details)
                                (fun details => merge_details permit_form details)
                         else Ok permit_form) (fun permit_form =>
                   bind (py_getitem rules "contact") (fun contact =>
                   bind (py_getitem rules "fees") (fun fees =>
                   bind (py_getitem rules "processing_time") (fun processing_time =>
                   Ok (json_dumps
                         (permit_payload py_str permit_form contact fees processing_time)))))))).
  { unfold generate_permit_form_tool.
    rewrite (extract_parsed json_loads _ _ Hinfo). cbn [bind]. rewrite Htruthy.
    simpl. unfold dict_has. rewrite Hrules. reflexivity. }
  rewrite Hrun. split.
  - intros Hno. destruct rules; try reflexivity. contradiction (Hno d). reflexivity.
  - intros r k -> Hk Hnone. unfold fill_form, py_getitem.
    destruct (dict_get r "jurisdiction_name") eqn:E1;
      [|reflexivity].
    destruct (dict_get r "permit_type") eqn:E2; [|reflexivity].
    destruct (dict_get r "requirements") eqn:E3; [|reflexivity].
    destruct (dict_get r "fees") eqn:E4; [|reflexivity].
    destruct (dict_get r "processing_time") eqn:E5; [|reflexivity].
    simpl in Hk. destruct Hk as [<-|[<-|[<-|[<-|[<-|[]]]]]]; congruence.
Qed.

End Tools.

(** ** The tools on sample texts, again *)

Lemma classifier_output_fills_form_witness :
  exists permit_form,
    generate_permit_form_tool (fun _ => "{}") (fun _ => Ok (classification_payload
        "Anytown, Nowhere" "california_default" (nth 2 (map snd JURISDICTION_RULES) VNone)))
      sample_str "Anytown, Nowhere" "{}" ""
    = Ok "{}" /\
    dict_get permit_form "fees" = Some (VInt 300) /\
    dict_get permit_form "jurisdiction" = Some (VStr "California County (Generic)").
Proof.
  destruct (classifier_output_fills_form (fun _ => "{}")
              (fun _ => Ok (classification_payload "Anytown, Nowhere" "california_default"
                              (nth 2 (map snd JURISDICTION_RULES) VNone)))
              sample_str "Anytown, Nowhere" "" [] eq_refl eq_refl (NoDup_nil _))
    as (data & rules & name & permit_type & requirements & fees & time & contact
        & permit_form & Htool & Hget & Hshape & Hrun & _ & Hform).
  injection Htool as <-. injection Hget as <-.
  injection Hshape as <- <- <- <- <- <-.
  exists permit_form. split; [exact Hrun|]. now rewrite !Hform.
Defined.

Lemma task_details_fill_form_witness :
  generate_permit_form_tool (fun _ => "{details}")
    (fun text => if String.eqb text "{details}" then Ok (system_details_of "7kW" "24")
                 else sample_loads text)
    sample_str "8770 W Olympic Blvd, Los Angeles"
    "```json {jurisdiction_info: los_angeles} ```" "{details}"
  = Ok "{details}".
Proof.
  refine (task_details_fill_form (fun _ => "{details}")
            (fun text => if String.eqb text "{details}" then Ok (system_details_of "7kW" "24")
                         else sample_loads text)
            sample_str "8770 W Olympic Blvd, Los Angeles"
            "```json {jurisdiction_info: los_angeles} ```" "7kW" "24"
            [ ("address", VStr "8770 W Olympic Blvd, Los Angeles");
              ("classified_jurisdiction", VStr "los_angeles");
              ("jurisdiction_info", nth 0 (map snd JURISDICTION_RULES) VNone) ]
            _ _ _ _ _ _ _ eq_refl eq_refl eq_refl eq_refl eq_refl eq_refl eq_refl eq_refl
            _ eq_refl).
  discriminate.
Defined.

Lemma non_object_jurisdiction_data_witness :
  generate_permit_form_tool (fun _ => "{}") (fun _ => Ok (VInt 5)) sample_str
    "1 Market St, San Francisco" "5" ""
  = Raise TypeError.
Proof.
  refine (non_object_jurisdiction_data (fun _ => "{}") (fun _ => Ok (VInt 5)) sample_str
            "1 Market St, San Francisco" "5" "" (VInt 5) eq_refl _).
  discriminate.
Defined.

Lemma incomplete_rules_raise_witness :
  generate_permit_form_tool (fun _ => "{}")
    (fun _ => Ok (VDict [ ("jurisdiction_info",
                           VDict [ ("jurisdiction_name", VStr "City of Los Angeles") ]) ]))
    sample_str "1 Market St, San Francisco" "{}" ""
  = Raise KeyError.
Proof.
  refine (proj2 (incomplete_rules_raise (fun _ => "{}")
                   (fun _ => Ok (VDict [ ("jurisdiction_info",
                                          VDict [ ("jurisdiction_name",
                                                   VStr "City of Los Angeles") ]) ]))
                   sample_str "1 Market St, San Francisco" "{}" "" _ _ eq_refl eq_refl)
            _ "fees" eq_refl _ eq_refl).
  simpl. tauto.
Defined.

End FormFacts.

(* ====================================================================== *)
(** * More on the research tool and its adapter *)
(* ====================================================================== *)

Module AdapterFacts.

Import Research Feasibility Orchestration PyFacts ResearchFacts.
Local Open Scope list_scope.

Lemma subseq_length {A : Type} (u l : list A) :
  subseq u l -> (List.length u <= List.length l)%nat.
Proof. induction 1; simpl; lia. Qed.

(** X8: articles gathered later never displace those gathered before: the
    unique articles of a list followed by another are the unique articles of
    the first list, followed by articles of the second in their order; there
    are never more unique articles than articles; and a list on which the
    loop raises makes it raise whatever follows. *)
Theorem dedup_extends (first second : list value) :
  (forall unique',
     dedup (first ++ second) = Ok unique' ->
     exists unique more,
       dedup first = Ok unique /\
       unique' = unique ++ more /\
       subseq more second /\
       (List.length unique' <= List.length first + List.length second)%nat) /\
  (forall e, dedup first = Raise e -> dedup (first ++ second) = Raise e).
Proof.
  unfold dedup. rewrite dedup_loop_app. split.
  - intros unique' H.
    destruct (dedup_loop first (mk_dedup [] [])) as [st1|e] eqn:H1; [|discriminate H].
    cbn [bind] in H. apply bind_ok in H. destruct H as (st' & H2 & E).
    assert (Hu : unique' = unique_articles st') by congruence. subst unique'.
    destruct (dedup_loop_adds _ _ _ H1) as (u1 & _ & Hu1 & _ & Hs1 & _).
    destruct (dedup_loop_adds _ _ _ H2) as (u2 & _ & Hu2 & _ & Hs2 & _).
    simpl in Hu1. exists (unique_articles st1), u2.
    repeat split; trivial.
    rewrite Hu2, Hu1, length_app.
    apply subseq_length in Hs1, Hs2. lia.
  - intros e H. destruct (dedup_loop first (mk_dedup [] [])) as [st1|e'] eqn:H1.
    + discriminate H.
    + simpl in H |- *. exact H.
Qed.

Lemma dedup_extends_witness :
  exists unique more,
    dedup (firstn 2 sample_articles) = Ok unique /\
    [nth 0 sample_articles VNone; nth 2 sample_articles VNone] = unique ++ more.
Proof.
  destruct (dedup_extends (firstn 2 sample_articles) (skipn 2 sample_articles)) as [H _].
  destruct (H [nth 0 sample_articles VNone; nth 2 sample_articles VNone] eq_refl)
    as (unique & more & H1 & H2 & _).
  now exists unique, more.
Defined.

Section Runner.

Variable json_loads : string -> option value.
Variable json_dumps : value -> string.
Variable https_get : string -> dict -> result string.

(** ** The adapter *)

(** A search whose exchange fails, or whose response is no JSON text, no
    JSON object, or an object without [data], gives no article. *)
Definition no_data (term api_token : string) : Prop :=
  match https_get base_url (news_query term api_token) with
  | Raise _ => True
  | Ok body =>
      match json_loads body with
      | Some (VDict d) => dict_get d "data" = None
      | _ => True
      end
  end.

Lemma no_data_empty (term api_token : string) :
  no_data term api_token ->
  _perform_news_search json_loads https_get term api_token base_url = VList [].
Proof.
  unfold no_data, _perform_news_search, loads_value.
  destruct (https_get base_url (news_query term api_token)) as [body|e]; [|reflexivity].
  cbn [bind]. destruct (json_loads body) as [[| | | | | |d]|]; try reflexivity.
  cbn [bind py_get]. now intros ->.
Qed.

(** What the loop of lines 69-71 can iterate over. *)
Definition iterable (v : value) : bool :=
  match v with
  | VList _ | VStr _ | VDict _ => true
  | _ => false
  end.

Lemma gather_all_lists (f : string -> string -> string -> list value)
      (terms : list string) (api_token : string) (acc : list value) :
  (forall term, In term terms ->
     _perform_news_search json_loads https_get term api_token base_url
     = VList (f term api_token base_url)) ->
  gather_all json_loads https_get terms api_token acc
  = Ok (acc ++ List.concat (map (fun term => f term api_token base_url) terms)).
Proof.
  revert acc. induction terms as [|t terms IH]; intros acc H; simpl.
  - now rewrite app_nil_r.
  - rewrite (H t (or_introl eq_refl)). cbn [py_extend bind].
    rewrite IH by (intros term Hin; apply H; now right).
    now rewrite app_assoc.
Qed.

Lemma gather_all_not_iterable (terms : list string) (api_token : string) (acc : list value) :
  (exists term, In term terms /\
     iterable (_perform_news_search json_loads https_get term api_token base_url) = false) ->
  gather_all json_loads https_get terms api_token acc = Raise TypeError.
Proof.
  revert acc. induction terms as [|t terms IH]; intros acc (term & Hin & Hbad).
  - contradiction Hin.
  - simpl.
    destruct (iterable (_perform_news_search json_loads https_get t api_token base_url))
      eqn:Ht.
    + destruct Hin as [->|Hin]; [congruence|].
      assert (Hok : exists acc', py_extend acc
                 (_perform_news_search json_loads https_get t api_token base_url)
                                 = Ok acc').
      { destruct (_perform_news_search json_loads https_get t api_token base_url);
          try discriminate Ht; eexists; reflexivity. }
      destruct Hok as [acc' ->]. cbn [bind]. apply IH. now exists term.
    + destruct (_perform_news_search json_loads https_get t api_token base_url);
        try discriminate Ht; reflexivity.
Qed.

(** X9: when every search gives a list, the tool built on the adapter of
    lines 21-41 is the tool of lines 44-86 on those lists. *)
Theorem adapter_on_lists (f : string -> string -> string -> list value)
        (NEWS_API_TOKEN : string) (location : option string) :
  (forall term, In term (located_terms location) ->
     _perform_news_search json_loads https_get term NEWS_API_TOKEN base_url
     = VList (f term NEWS_API_TOKEN base_url)) ->
  Orchestration.site_impact_research_tool json_loads json_dumps https_get
    NEWS_API_TOKEN location
  = Research.site_impact_research_tool json_dumps f NEWS_API_TOKEN location.
Proof.
  intros H.
  unfold Orchestration.site_impact_research_tool, Research.site_impact_research_tool.
  destruct (String.eqb NEWS_API_TOKEN ""); [reflexivity|].
  rewrite (gather_all_lists f _ _ [] H), gather_concat. reflexivity.
Qed.

(** X10: one response whose [data] is null, a boolean or a number makes the
    research tool raise a [TypeError], whatever the other responses hold. *)
Theorem data_not_iterable_raises
        (NEWS_API_TOKEN : string) (location : option string)
        (term body : string) (d : dict) (data : value) :
  NEWS_API_TOKEN <> "" ->
  In term (located_terms location) ->
  https_get base_url (news_query term NEWS_API_TOKEN) = Ok body ->
  json_loads body = Some (VDict d) ->
  dict_get d "data" = Some data ->
  iterable data = false ->
  Orchestration.site_impact_research_tool json_loads json_dumps https_get
    NEWS_API_TOKEN location
  = Raise TypeError.
Proof.
  intros Htoken Hin Hget Hloads Hdata Hbad.
  unfold Orchestration.site_impact_research_tool.
  apply String.eqb_neq in Htoken. rewrite Htoken.
  rewrite gather_all_not_iterable; [reflexivity|].
  exists term. split; [exact Hin|].
  unfold _perform_news_search, loads_value. rewrite Hget. cbn [bind].
  rewrite Hloads. cbn [bind py_get]. now rewrite Hdata.
Qed.

(** The research score of a report of the tool. *)
Lemma research_of_payload (unique : list value) (location : option string) :
  research_stage json_loads (research_payload unique location)
  = NInt (Z.max 20 (70 - 2 * Z.of_nat (List.length unique))).
Proof.
  unfold research_stage, research_try, research_payload.
  cbn [loads_if_str bind py_get dict_get String.eqb Ascii.eqb Bool.eqb].
  unfold research_formula. cbn [as_num bind]. unfold num_mul, num_sub. cbn [bind or_flat_60].
  unfold num_min, num_max. rewrite num_lt_int.
  assert (H80 : (70 - Z.of_nat (List.length unique) * 2 <? 80) = true)
    by (apply Z.ltb_lt; lia).
  rewrite H80. cbv iota. rewrite num_gt_int.
  destruct (20 <? 70 - Z.of_nat (List.length unique) * 2) eqn:E; f_equal; lia.
Qed.

(** X11: when no search gives data (the exchange fails, the response is
    no JSON object, or it has no [data]), the tool reports no article, and
    that report earns the research score 70, the highest a report of the
    tool can earn. *)
Theorem dead_api_scores_best (NEWS_API_TOKEN : string) (location : option string) :
  NEWS_API_TOKEN <> "" ->
  (forall term, In term (located_terms location) -> no_data term NEWS_API_TOKEN) ->
  Orchestration.site_impact_research_tool json_loads json_dumps https_get
    NEWS_API_TOKEN location
  = Ok (json_dumps (VDict [ ("total_articles", VInt 0);
                            ("articles", VList []);
                            ("search_location", VStr (search_location location)) ])) /\
  research_stage json_loads (research_payload [] location) = NInt 70 /\
  forall unique,
    num_le (research_stage json_loads (research_payload unique location)) (NInt 70) = true.
Proof.
  intros Htoken Hdead. split; [|split].
  - unfold Orchestration.site_impact_research_tool.
    apply String.eqb_neq in Htoken. rewrite Htoken.
    rewrite (gather_all_lists (fun _ _ _ => []) _ _ []).
    + assert (Hnil : forall terms : list string,
                 List.concat (map (fun _ => @nil value) terms) = []).
      { induction terms as [|t terms IH]; simpl; [reflexivity | exact IH]. }
      rewrite Hnil. reflexivity.
    + intros term Hin. apply no_data_empty. now apply Hdead.
  - reflexivity.
  - intros unique. rewrite research_of_payload, num_le_int. apply Z.leb_le. lia.
Qed.

(** X12: the research score of a report of the tool is 70 less two points
    for each unique article, and not less than 20: it is 20 from 25 unique
    articles on; the report scores the same when it comes as its JSON
    text. *)
Theorem report_research_score (unique : list value) (location : option string) :
  research_stage json_loads (research_payload unique location)
  = NInt (Z.max 20 (70 - 2 * Z.of_nat (List.length unique))) /\
  ((25 <= List.length unique)%nat ->
   research_stage json_loads (research_payload unique location) = NInt 20) /\
  (forall text,
     json_loads text = Some (research_payload unique location) ->
     research_stage json_loads (VStr text)
     = research_stage json_loads (research_payload unique location)).
Proof.
  split; [apply research_of_payload | split].
  - intros H. rewrite research_of_payload. f_equal. lia.
  - intros text H. unfold research_stage, research_try, loads_if_str. now rewrite H.
Qed.

End Runner.

Lemma data_not_iterable_raises_witness :
  Orchestration.site_impact_research_tool
    (fun _ => Some (VDict [("data", VNone)])) (fun _ => "{}") (fun _ _ => Ok "{data: null}")
    "token" None
  = Raise TypeError.
Proof.
  refine (data_not_iterable_raises (fun _ => Some (VDict [("data", VNone)])) (fun _ => "{}")
            (fun _ _ => Ok "{data: null}") "token" None
            "solar development moratorium" "{data: null}" [("data", VNone)] VNone
            _ _ eq_refl eq_refl eq_refl eq_refl).
  - discriminate.
  - now left.
Defined.

Lemma adapter_on_lists_witness :
  Orchestration.site_impact_research_tool
    (fun _ => Some (VDict [("data", VList sample_articles)])) (fun _ => "{}")
    (fun _ _ => Ok "{data: [...]}") "token" None
  = Ok "{}".
Proof.
  rewrite (adapter_on_lists (fun _ => Some (VDict [("data", VList sample_articles)]))
             (fun _ => "{}") (fun _ _ => Ok "{data: [...]}")
             (fun _ _ _ => sample_articles) "token" None).
  - reflexivity.
  - intros term _. reflexivity.
Defined.

Lemma dead_api_scores_best_witness :
  Orchestration.site_impact_research_tool
    (fun _ => None) (fun _ => "{}") (fun _ _ => Ok "<html>Bad Gateway</html>") "token"
    (Some "California")
  = Ok "{}".
Proof.
  refine (proj1 (dead_api_scores_best (fun _ => None) (fun _ => "{}")
                   (fun _ _ => Ok "<html>Bad Gateway</html>") "token"
                   (Some "California") _ _)).
  - discriminate.
  - intros term _. exact I.
Defined.

Lemma report_research_score_witness :
  research_stage (fun _ => None) (research_payload (repeat VNone 30) None) = NInt 20.
Proof.
  refine (proj1 (proj2 (report_research_score (fun _ => None) (repeat VNone 30) None)) _).
  simpl. lia.
Defined.

End AdapterFacts.

(* ====================================================================== *)
(** * More on the scorer *)
(* ====================================================================== *)

Module ScorerFacts.

Import Research Permitting Feasibility Orchestration PyFacts FeasibilityFacts FormFacts.
Local Open Scope list_scope.

(** ** The decision at a permit score and an integer research score *)

Definition decision_at (permit_score : float) (research_score : Z) : string * string :=
  match overall (NFloat permit_score) (NInt research_score) with
  | Ok overall_score => decide_risk overall_score
  | Raise _ => (EmptyString, EmptyString)
  end.

Definition pair_eqb (a b : string * string) : bool :=
  String.eqb (fst a) (fst b) && String.eqb (snd a) (snd b).

Lemma pair_eqb_eq (a b : string * string) : pair_eqb a b = true -> a = b.
Proof.
  destruct a, b. unfold pair_eqb. simpl. intros H.
  apply andb_true_iff in H. destruct H as [H1 H2].
  apply String.eqb_eq in H1, H2. congruence.
Qed.

(** A table checked entry by entry, for research scores from 20 to 70. *)
Lemma decision_table (permit_score : float) (expected : Z -> string * string) (z : Z) :
  forallb (fun n => pair_eqb (decision_at permit_score (20 + Z.of_nat n))
                      (expected (20 + Z.of_nat n)))
    (List.seq 0 51) = true ->
  20 <= z <= 70 ->
  decision_at permit_score z = expected z.
Proof.
  intros Hall Hz. rewrite forallb_forall in Hall.
  specialize (Hall (Z.to_nat (z - 20))).
  replace (20 + Z.of_nat (Z.to_nat (z - 20))) with z in Hall by lia.
  apply pair_eqb_eq, Hall, in_seq. lia.
Qed.

Section Scorer.

Variable json_loads : string -> option value.

(** The research score at an integer number of articles. *)
Lemma research_stage_int (rd : value) (d : dict) (total : value) (t : Z) :
  loads_if_str json_loads rd = Ok (VDict d) ->
  py_get (VDict d) "total_articles" (VInt 0) = Ok total ->
  as_num total = Some (NInt t) ->
  research_stage json_loads rd = NInt (Z.max 20 (Z.min 80 (70 - t * 2))).
Proof.
  intros Hrd Htotal Hnum.
  unfold research_stage, research_try. rewrite Hrd. cbn [bind]. rewrite Htotal. cbn [bind].
  unfold research_formula. rewrite Hnum.
  unfold num_mul, num_sub, bind, or_flat_60, num_min, num_max.
  rewrite num_lt_int.
  destruct (70 - t * 2 <? 80) eqn:E1; cbv iota; rewrite num_gt_int.
  - destruct (20 <? 70 - t * 2) eqn:E2; f_equal; lia.
  - change (20 <? 80) with true. cbv iota. f_equal. lia.
Qed.

(** X13: more articles never raise the research score: of two research
    results with integer article counts, the one with the larger count has
    the research score that is not the larger. *)
Theorem research_score_antitone (rd1 rd2 : value) (d1 d2 : dict) (t1 t2 : Z) :
  loads_if_str json_loads rd1 = Ok (VDict d1) ->
  loads_if_str json_loads rd2 = Ok (VDict d2) ->
  dict_get d1 "total_articles" = Some (VInt t1) ->
  dict_get d2 "total_articles" = Some (VInt t2) ->
  t1 <= t2 ->
  num_le (research_stage json_loads rd2) (research_stage json_loads rd1) = true.
Proof.
  intros H1 H2 Ht1 Ht2 Hle.
  rewrite (research_stage_int rd1 d1 (VInt t1) t1 H1), (research_stage_int rd2 d2 (VInt t2) t2 H2);
    try reflexivity; try (unfold py_get; rewrite ?Ht1, ?Ht2; reflexivity).
  rewrite num_le_int. apply Z.leb_le. lia.
Qed.

(** X14: the permit score is never negative and never a NaN, on any
    permitting input: it is 0 or more in the exact order of numbers. *)
Theorem permit_score_not_negative (permitting_data : value) :
  num_le (NInt 0) (snd (permit_stage json_loads permitting_data)) = true.
Proof.
  rewrite permit_stage_eq.
  destruct (loads_if_str json_loads permitting_data) as [pd|e]; [|reflexivity].
  destruct (extract_permit pd unbound) as [l [s|e]] eqn:E; [|reflexivity].
  cbn [snd or_flat_60].
  apply extract_permit_result in E. destruct E as (f & w & _ & E).
  unfold permit_formula in E. destruct (as_num f) as [n|]; [|discriminate E].
  apply bind_ok in E. destruct E as (q & _ & E).
  apply bind_ok in E. destruct E as (a & _ & E).
  apply bind_ok in E. destruct E as (b & _ & E).
  assert (Hs : s = num_max (NInt 0) b) by congruence. subst s.
  unfold num_max. destruct (num_gt b (NInt 0)) eqn:Hgt; [|reflexivity].
  apply num_lt_le. now rewrite <- num_gt_lt.
Qed.

(** The permit score of permitting data whose permit form holds the fees
    and the processing time of the address's jurisdiction. *)
Lemma permit_of_rules (address : string) (pd pf rules : dict) :
  dict_get JURISDICTION_RULES (classify address) = Some (VDict rules) ->
  dict_get pd "permit_form" = Some (VDict pf) ->
  dict_get pf "fees" = dict_get rules "fees" ->
  dict_get pf "processing_time" = dict_get rules "processing_time" ->
  exists fees weeks score,
    permit_stage json_loads (VDict pd)
    = (mk_locals (Some (VInt fees)) (Some weeks), NFloat score) /\
    ((classify address = "los_angeles" /\ fees = 500 /\ weeks = 4 /\ score = 30%float) \/
     (classify address = "san_francisco" /\ fees = 750 /\ weeks = 3 /\ score = 10%float) \/
     (classify address = "california_default" /\ fees = 300 /\ weeks = 2
      /\ score = 60%float)).
Proof.
  intros Hrules Hpf Hfees Htime.
  destruct (classified_rules address)
    as (rules' & name & permit_type & requirements & fees & time & contact
        & Hget & _ & _ & _ & Hf & Ht & _ & Hcase).
  assert (rules' = rules) by congruence. subst rules'.
  rewrite Hf in Hfees. rewrite Ht in Htime.
  assert (Hstage : permit_stage json_loads (VDict pd)
                   = let '(l, r) := extract_permit (VDict pd) unbound in (l, or_flat_60 r))
    by (rewrite permit_stage_eq; reflexivity).
  rewrite Hstage.
  rewrite (extract_permit_form pd pf (VInt fees) time unbound Hpf)
    by (unfold py_get; rewrite ?Hfees, ?Htime; reflexivity).
  destruct Hcase as [(Hc & -> & ->)|[(Hc & -> & ->)|(Hc & -> & ->)]].
  - exists 500, 4, 30%float. split; [vm_compute; reflexivity | tauto].
  - exists 750, 3, 10%float. split; [vm_compute; reflexivity | tauto].
  - exists 300, 2, 60%float. split; [vm_compute; reflexivity | tauto].
Qed.

(** X15: with the rules of the table and a report of the research tool,
    the decision is never GO: an address of Los Angeles or San Francisco
    always gets NO-GO and High, with the permit score 30 or 10; any other
    address has the permit score 60, and gets CONDITIONAL GO and Medium up
    to 17 unique articles, NO-GO and High from 18 on. *)
Theorem rule_table_decisions
        (address : string) (pd pf rules : dict)
        (unique : list value) (location : option string) :
  dict_get JURISDICTION_RULES (classify address) = Some (VDict rules) ->
  dict_get pd "permit_form" = Some (VDict pf) ->
  dict_get pf "fees" = dict_get rules "fees" ->
  dict_get pf "processing_time" = dict_get rules "processing_time" ->
  exists report,
    calculate_feasibility_score json_loads (VDict pd) (research_payload unique location)
    = Ok (VDict report) /\
    dict_get report "permit_score"
    = Some (VFloat (if String.eqb (classify address) "los_angeles" then 30
                    else if String.eqb (classify address) "san_francisco" then 10
                    else 60)) /\
    (dict_get report "decision", dict_get report "risk_level")
    = if String.eqb (classify address) "california_default"
         && (List.length unique <=? 17)%nat
      then (Some (VStr "CONDITIONAL GO"), Some (VStr "Medium"))
      else (Some (VStr "NO-GO"), Some (VStr "High")).
Proof.
  intros Hrules Hpf Hfees Htime.
  destruct (permit_of_rules address pd pf rules Hrules Hpf Hfees Htime)
    as (fees & weeks & score & Hstage & Hcase).
  destruct (calculate_returns json_loads (VDict pd) (research_payload unique location) eq_refl)
    as (s & f & w & Hs & _ & Hrun).
  rewrite Hstage in Hs, Hrun. cbn [snd] in Hs, Hrun.
  rewrite (AdapterFacts.research_of_payload json_loads unique location) in Hs, Hrun.
  set (z := Z.max 20 (70 - 2 * Z.of_nat (List.length unique))) in *.
  assert (Hz : 20 <= z <= 70) by (unfold z; lia).
  assert (Hdecide : decide_risk (NFloat s) = decision_at score z)
    by (unfold decision_at; now rewrite Hs).
  eexists. split; [exact Hrun|]. cbn [dict_get String.eqb Ascii.eqb Bool.eqb].
  rewrite Hdecide.
  destruct Hcase as [(Hc & _ & _ & ->)|[(Hc & _ & _ & ->)|(Hc & _ & _ & ->)]]; rewrite Hc.
  - rewrite (decision_table 30 (fun _ => ("NO-GO", "High")) z) by (trivial; vm_compute; reflexivity).
    split; reflexivity.
  - rewrite (decision_table 10 (fun _ => ("NO-GO", "High")) z) by (trivial; vm_compute; reflexivity).
    split; reflexivity.
  - rewrite (decision_table 60
               (fun r => if 35 <=? r then ("CONDITIONAL GO", "Medium") else ("NO-GO", "High")) z)
      by (trivial; vm_compute; reflexivity).
    split; [reflexivity|]. cbn [String.eqb Ascii.eqb Bool.eqb andb].
    destruct (List.length unique <=? 17)%nat eqn:E.
    + apply Nat.leb_le in E. assert (H35 : (35 <=? z) = true) by (apply Z.leb_le; unfold z; lia).
      now rewrite H35.
    + apply Nat.leb_gt in E. assert (H35 : (35 <=? z) = false) by (apply Z.leb_gt; unfold z; lia).
      now rewrite H35.
Qed.

End Scorer.

Lemma research_score_antitone_witness :
  num_le (research_stage no_json (research_of 20)) (research_stage no_json (research_of 3))
  = true.
Proof.
  exact (research_score_antitone no_json (research_of 3) (research_of 20)
           [("total_articles", VInt 3)] [("total_articles", VInt 20)] 3 20
           eq_refl eq_refl eq_refl eq_refl ltac:(lia)).
Defined.

Lemma rule_table_decisions_witness :
  exists report,
    calculate_feasibility_score no_json (permit_of (VInt 300) "2-4 weeks")
      (research_payload [VDict [("title", VStr "Solar rebate extended")]] None)
    = Ok (VDict report) /\
    dict_get report "decision" = Some (VStr "CONDITIONAL GO").
Proof.
  destruct (rule_table_decisions no_json "Anytown, Nowhere"
              [ ("permit_form",
                 VDict [ ("fees", VInt 300); ("processing_time", VStr "2-4 weeks") ]) ]
              [ ("fees", VInt 300); ("processing_time", VStr "2-4 weeks") ]
              [ ("jurisdiction_name", VStr "California County (Generic)");
                ("permit_type", VStr "Residential Solar Permit");
                ("requirements",
                 strs [ "Solar system design plans";
                        "Electrical diagram";
                        "Building department application";
                        "Utility notification form" ]);
                ("fees", VInt 300);
                ("processing_time", VStr "2-4 weeks");
                ("contact", VStr "Local building department") ]
              [VDict [("title", VStr "Solar rebate extended")]] None
              eq_refl eq_refl eq_refl eq_refl)
    as (report & Hrun & _ & Hdecision).
  exists report. split; [exact Hrun|].
  now injection Hdecision.
Defined.

End ScorerFacts.

(* ====================================================================== *)
(** * The assessment from the runner's results to the report *)
(* ====================================================================== *)

Module AssessFacts.

Import Feasibility Orchestration PyFacts FeasibilityFacts.
Local Open Scope list_scope.

Section Runner.

Variable json_loads : string -> option value.
Variable py_str : value -> string.
Variable crew_str : crew_result -> string.
Variable permitting_kickoff : string -> string -> string -> crew_result.
Variable research_kickoff : string -> crew_result.

(** A raw text that [json.loads] rejects is answered by [str(crew_result)],
    whatever the task outputs hold. *)
Lemma raw_text_rejected (crew : crew_result) (t : string) :
  raw crew = Some (VStr t) ->
  t <> "" ->
  json_loads t = None ->
  get_crew_answer json_loads crew_str crew = VStr (crew_str crew).
Proof.
  intros Hraw Ht Hloads. unfold get_crew_answer. rewrite Hraw.
  unfold truthy. apply String.eqb_neq in Ht. rewrite Ht. cbn [negb].
  unfold loads_value. now rewrite Hloads.
Qed.

(** The scorer on a text that [json.loads] rejects. *)
Lemma calculate_unparsed (s : string) (rd : value) :
  json_loads s = None ->
  calculate_feasibility_score json_loads (VStr s) rd = Raise UnboundLocalError.
Proof.
  intros H. destruct (overall_total json_loads (VStr s) rd) as [x Hx].
  unfold calculate_feasibility_score.
  rewrite (permit_stage_unparsed json_loads s H) in *. cbn [snd] in Hx.
  unfold report. rewrite Hx. cbn [bind].
  now destruct (decide_risk (NFloat x)).
Qed.

(** X16: a permitting crew that answers in plain words stops the
    assessment: when its raw text is not JSON and neither is
    [str(crew_result)], the task outputs are not consulted,
    [get_crew_answer] hands the text on, and the assessment raises
    [UnboundLocalError] instead of returning a report. *)
Theorem free_text_answer_stops_assessment (address system_size panel_count t : string) :
  raw (permitting_kickoff address system_size panel_count) = Some (VStr t) ->
  t <> "" ->
  json_loads t = None ->
  json_loads (crew_str (permitting_kickoff address system_size panel_count)) = None ->
  get_crew_answer json_loads crew_str (permitting_kickoff address system_size panel_count)
  = VStr (crew_str (permitting_kickoff address system_size panel_count)) /\
  assess_solar_site_feasibility json_loads py_str crew_str permitting_kickoff research_kickoff
    address system_size panel_count
  = Raise UnboundLocalError.
Proof.
  intros Hraw Ht Hloads Hstr.
  pose proof (raw_text_rejected _ t Hraw Ht Hloads) as Hanswer.
  split; [exact Hanswer|].
  unfold assess_solar_site_feasibility. rewrite Hanswer.
  now rewrite (calculate_unparsed _ _ Hstr).
Qed.

(** X17: in every other case the assessment returns a report, whatever the
    research crew answered: when the permitting answer is not a text that
    [json.loads] rejects, the report carries the score, the decision and the
    risk level of the scorer on the two answers, one of the three pairs of
    decision and risk level, the location derived from the address, and both
    answers as they came. *)
Theorem assessment_reports (address system_size panel_count : string) :
  is_ok (loads_if_str json_loads
           (get_crew_answer json_loads crew_str
              (permitting_kickoff address system_size panel_count))) = true ->
  exists feasibility report,
    calculate_feasibility_score json_loads
      (get_crew_answer json_loads crew_str
         (permitting_kickoff address system_size panel_count))
      (get_crew_answer json_loads crew_str
         (research_kickoff (extract_location_from_address address)))
    = Ok (VDict feasibility) /\
    assess_solar_site_feasibility json_loads py_str crew_str permitting_kickoff
      research_kickoff address system_size panel_count
    = Ok (VDict report) /\
    dict_get report "address" = Some (VStr address) /\
    dict_get report "feasibility_score" = dict_get feasibility "overall_score" /\
    dict_get report "decision" = dict_get feasibility "decision" /\
    dict_get report "risk_level" = dict_get feasibility "risk_level" /\
    In (dict_get report "decision", dict_get report "risk_level")
       [ (Some (VStr "GO"), Some (VStr "Low"));
         (Some (VStr "CONDITIONAL GO"), Some (VStr "Medium"));
         (Some (VStr "NO-GO"), Some (VStr "High")) ] /\
    (exists key_factors,
        dict_get report "key_factors" = Some (VDict key_factors) /\
        dict_get key_factors "location_research"
        = Some (VStr (extract_location_from_address address))) /\
    dict_get report "raw_permitting_data"
    = Some (get_crew_answer json_loads crew_str
              (permitting_kickoff address system_size panel_count)) /\
    dict_get report "raw_research_data"
    = Some (get_crew_answer json_loads crew_str
              (research_kickoff (extract_location_from_address address))).
Proof.
  intros Hpd.
  destruct (calculate_returns json_loads _
              (get_crew_answer json_loads crew_str
                 (research_kickoff (extract_location_from_address address))) Hpd)
    as (s & f & w & _ & _ & Hrun).
  unfold assess_solar_site_feasibility. rewrite Hrun.
  eexists. eexists. split; [reflexivity|].
  unfold final_report.
  cbn [bind py_getitem dict_get String.eqb Ascii.eqb Bool.eqb].
  split; [reflexivity|].
  repeat (split; [reflexivity|]).
  split.
  - cbn [dict_get String.eqb Ascii.eqb Bool.eqb].
    unfold decide_risk.
    destruct (num_ge (NFloat s) (NInt 70)); [now left|].
    destruct (num_ge (NFloat s) (NInt 50)); [right; now left | right; right; now left].
  - split; [eexists; split; reflexivity|]. split; reflexivity.
Qed.

End Runner.

(** ** The assessment on sample runs *)

Definition words_only : crew_result :=
  mk_crew_result (Some (VStr "The permit form has been generated.")) None.

Definition answers_object : crew_result :=
  mk_crew_result
    (Some (VDict [ ("permit_form",
                    VDict [ ("fees", VInt 300);
                            ("processing_time", VStr "2-4 weeks") ]) ]))
    None.

Definition no_answer : crew_result := mk_crew_result None None.

Lemma free_text_answer_stops_assessment_witness :
  assess_solar_site_feasibility no_json (fun _ => "") (fun _ => "CrewOutput")
    (fun _ _ _ => words_only) (fun _ => no_answer) "1 Main St" "5kW" "20"
  = Raise UnboundLocalError.
Proof.
  refine (proj2 (free_text_answer_stops_assessment no_json (fun _ => "") (fun _ => "CrewOutput")
                   (fun _ _ _ => words_only) (fun _ => no_answer)
                   "1 Main St" "5kW" "20" "The permit form has been generated."
                   eq_refl _ eq_refl eq_refl)).
  discriminate.
Defined.

Lemma assessment_reports_witness :
  exists report,
    assess_solar_site_feasibility no_json (fun _ => "") (fun _ => "CrewOutput")
      (fun _ _ _ => answers_object) (fun _ => no_answer) "1 Main St" "5kW" "20"
    = Ok (VDict report) /\
    dict_get report "address" = Some (VStr "1 Main St").
Proof.
  destruct (assessment_reports no_json (fun _ => "") (fun _ => "CrewOutput")
              (fun _ _ _ => answers_object) (fun _ => no_answer)
              "1 Main St" "5kW" "20" eq_refl)
    as (feasibility & report & _ & Hrun & Haddress & _).
  exists report. split; [exact Hrun | exact Haddress].
Defined.

End AssessFacts.

(* ====================================================================== *)
(** * The answer of a crew without a raw text *)
(* ====================================================================== *)

Module AnswerFacts.

Import Orchestration PyFacts.
Local Open Scope list_scope.

Lemma last_of_tasks (earlier : list task_output) (final : task_output) :
  exists first rest,
    earlier ++ [final] = first :: rest /\ last rest first = final.
Proof.
  destruct earlier as [|first earlier].
  - exists final, []. split; reflexivity.
  - exists first, (earlier ++ [final]). split; [reflexivity|].
    apply last_last.
Qed.

Section Runner.

Variable json_loads : string -> option value.
Variable crew_str : crew_result -> string.

(** X18: without a raw answer only the last task output counts: when [raw]
    is absent or empty, the answer is the parsed result of the last task,
    whatever the earlier tasks hold, and [str(crew_result)] when that result
    is not JSON or the last task output has no result. *)
Theorem last_task_output_answers
        (crew : crew_result) (earlier : list task_output) (final : task_output) :
  match raw crew with Some r => truthy r = false | None => True end ->
  tasks_output crew = Some (earlier ++ [final]) ->
  get_crew_answer json_loads crew_str crew
  = match task_result final with
    | Some (VStr s) =>
        match json_loads s with
        | Some answer => answer
        | None => VStr (crew_str crew)
        end
    | _ => VStr (crew_str crew)
    end.
Proof.
  intros Hraw Htasks.
  destruct (last_of_tasks earlier final) as (first & rest & Hsplit & Hlast).
  assert (Hfrom : get_crew_answer json_loads crew_str crew
                  = match from_tasks_output json_loads crew_str crew with
                    | Ok answer => answer
                    | Raise _ => VStr (crew_str crew)
                    end).
  { unfold get_crew_answer. destruct (raw crew) as [r|]; [|reflexivity].
    now rewrite Hraw. }
  rewrite Hfrom. unfold from_tasks_output. rewrite Htasks, Hsplit, Hlast.
  destruct (task_result final) as [[| | | |s| |]|]; try reflexivity.
  unfold loads_value. now destruct (json_loads s).
Qed.

End Runner.

Lemma last_task_output_answers_witness :
  get_crew_answer (fun s => if String.eqb s "{}" then Some (VDict []) else None)
    (fun _ => "CrewOutput")
    (mk_crew_result (Some (VStr ""))
       (Some [ mk_task_output (Some (VStr "draft")); mk_task_output (Some (VStr "{}")) ]))
  = VDict [].
Proof.
  exact (last_task_output_answers
           (fun s => if String.eqb s "{}" then Some (VDict []) else None)
           (fun _ => "CrewOutput")
           (mk_crew_result (Some (VStr ""))
              (Some [ mk_task_output (Some (VStr "draft"));
                      mk_task_output (Some (VStr "{}")) ]))
           [ mk_task_output (Some (VStr "draft")) ] (mk_task_output (Some (VStr "{}")))
           eq_refl eq_refl).
Defined.

End AnswerFacts.
